(** * simple_ado: the top-level Azure DevOps client facade

    A shallow embedding of [simple_ado/__init__.py]: branch-name
    canonicalization, the request body of [create_pull_request], the
    exception-to-boolean conversion of [verify_access] and the pagination
    loop of [list_all_pull_requests].

    Python strings are [string]s (sequences of 8-bit characters: every
    delimiter the code and the URL syntax look at is ASCII), Python [int]
    offsets are [nat]s, JSON values are an inductive type whose objects are
    insertion-ordered association lists (as Python dicts are), and the
    effects of the HTTP client (talking to the server, raising) live in a
    small state and exception monad.  The [while True] loop of the listing
    takes fuel: a run that is out of fuel for every amount of it is a run
    that never ends. *)

From Stdlib Require Import String Ascii List Arith Lia Bool.
From Stdlib Require Import DecimalString.
Import ListNotations.
Open Scope string_scope.

(** ** Python string primitives *)

Module PyStr.

(** [s.startswith(p)] *)
Fixpoint startswith (p s : string) : bool :=
  match p with
  | EmptyString => true
  | String a p' =>
      match s with
      | EmptyString => false
      | String b s' => Ascii.eqb a b && startswith p' s'
      end
  end.

(** [f"{n}"] for a non-negative [int]. *)
Definition format_int (n : nat) : string :=
  NilZero.string_of_uint (Nat.to_uint n).

(** [c in s] for a one-character [c]. *)
Fixpoint contains (c : ascii) (s : string) : bool :=
  match s with
  | EmptyString => false
  | String a s' => Ascii.eqb a c || contains c s'
  end.

(** [s.partition(c)]: the text before the first [c], and the text after it
    when there is one. *)
Fixpoint partition (c : ascii) (s : string) : string * option string :=
  match s with
  | EmptyString => (EmptyString, None)
  | String a s' =>
      if Ascii.eqb a c then (EmptyString, Some s')
      else let (before, after) := partition c s' in (String a before, after)
  end.

(** [s.split(c)] *)
Fixpoint split (c : ascii) (s : string) : list string :=
  match s with
  | EmptyString => [EmptyString]
  | String a s' =>
      if Ascii.eqb a c then EmptyString :: split c s'
      else match split c s' with
           | [] => [String a EmptyString]
           | piece :: pieces => String a piece :: pieces
           end
  end.

End PyStr.

(** [c] is a decimal digit. *)
Definition is_digit (c : ascii) : bool :=
  PyStr.contains c "0123456789".

(** ** Percent-encoding, as [urllib.parse] does it *)

Module UrlLib.

(** The characters [quote] never escapes. *)
Definition always_safe (c : ascii) : bool :=
  PyStr.contains c
    "ABCDEFGHIJKLMNOPQRSTUVWXYZabcdefghijklmnopqrstuvwxyz0123456789_.-~".

(** The upper-case hexadecimal digit of [n < 16]. *)
Definition hex_digit (n : nat) : ascii :=
  match String.get n "0123456789ABCDEF" with
  | Some c => c
  | None => "0"%char
  end.

(** One character as [quote_plus] writes it: itself when safe, [+] for a
    space, [%XX] otherwise. *)
Definition quote_char (c : ascii) : string :=
  if always_safe c then String c ""
  else if Ascii.eqb c " " then "+"
  else String "%" (String (hex_digit (nat_of_ascii c / 16))
                     (String (hex_digit (nat_of_ascii c mod 16)) "")).

(** [urllib.parse.quote_plus(s)] *)
Fixpoint quote_plus (s : string) : string :=
  match s with
  | EmptyString => EmptyString
  | String c s' => quote_char c ++ quote_plus s'
  end.

(** [urllib.parse.urlencode(query)] for a dict of strings, in insertion
    order. *)
Definition urlencode (query : list (string * string)) : string :=
  String.concat "&"
    (map (fun kv => quote_plus (fst kv) ++ "=" ++ quote_plus (snd kv)) query).

(** The value of a hexadecimal digit of either case. *)
Definition hex_value (c : ascii) : option nat :=
  match index 0 (String c "") "0123456789abcdef" with
  | Some n => Some n
  | None =>
      match index 0 (String c "") "0123456789ABCDEF" with
      | Some n => Some n
      | None => None
      end
  end.

(** [urllib.parse.unquote_plus(s)]: [+] reads as a space and [%XX] as the
    character of that code; a [%] that no two hexadecimal digits follow
    stays as it is. *)
Fixpoint unquote_plus (s : string) : string :=
  match s with
  | EmptyString => EmptyString
  | String c s' =>
      if Ascii.eqb c "+" then String " " (unquote_plus s')
      else if Ascii.eqb c "%" then
        match s' with
        | String x (String y s'') =>
            match hex_value x, hex_value y with
            | Some h, Some l =>
                String (ascii_of_nat (16 * h + l)) (unquote_plus s'')
            | _, _ => String c (unquote_plus s')
            end
        | _ => String c (unquote_plus s')
        end
      else String c (unquote_plus s')
  end.

End UrlLib.

(** ** Branch references *)

(** [_canonicalize_branch_name] *)
Definition _canonicalize_branch_name (branch_name : string) : string :=
  if negb (PyStr.startswith "refs/heads/" branch_name)
  then "refs/heads/" ++ branch_name
  else branch_name.

(** ** JSON payloads as Python sees them *)

(** A decoded JSON document.  Objects keep their keys in insertion order,
    like the [dict] that [json.loads] builds; numbers are kept to the
    naturals, which is all that identifiers and counts need. *)
#[local] Set Warnings "-register-all,-notation-for-abbreviation".
Inductive json : Type :=
| JNull
| JBool (b : bool)
| JNum (n : nat)
| JStr (s : string)
| JArr (items : list json)
| JObj (fields : list (string * json)).

Module PyDict.

(** [d.get(k)] on an insertion-ordered dict. *)
Fixpoint get {V : Type} (k : string) (d : list (string * V)) : option V :=
  match d with
  | [] => None
  | (k', v) :: d' => if String.eqb k' k then Some v else get k d'
  end.

(** [d[k] = v]: overwrite in place when the key exists, else append. *)
Fixpoint set {V : Type} (k : string) (v : V) (d : list (string * V))
  : list (string * V) :=
  match d with
  | [] => [(k, v)]
  | (k', v') :: d' =>
      if String.eqb k' k then (k', v) :: d' else (k', v') :: set k v d'
  end.

(** [list(d.keys())] *)
Definition keys {V : Type} (d : list (string * V)) : list string :=
  map fst d.

End PyDict.

(** The one-character strings of [s], as iterating a [str] yields them. *)
Fixpoint chars (s : string) : list string :=
  match s with
  | EmptyString => []
  | String a s' => String a EmptyString :: chars s'
  end.

(** [len(x)]: defined on lists, dicts and strings; [None] stands for the
    [TypeError] Python raises on [None], booleans and numbers. *)
Definition py_len (x : json) : option nat :=
  match x with
  | JArr items => Some (List.length items)
  | JObj fields => Some (List.length fields)
  | JStr s => Some (String.length s)
  | JNull | JBool _ | JNum _ => None
  end.

(** The elements [some_list.extend(x)] appends: the items of a list, the
    keys of a dict, the characters of a string; [None] is [TypeError]. *)
Definition py_iter (x : json) : option (list json) :=
  match x with
  | JArr items => Some items
  | JObj fields => Some (map JStr (PyDict.keys fields))
  | JStr s => Some (map JStr (chars s))
  | JNull | JBool _ | JNum _ => None
  end.

(** ** Requests, responses and exceptions *)

(** What the client puts on the wire. *)
Inductive Request : Type :=
| GET (url : string)
| POST (url : string) (json_data : json).

(** Modelled from the spec: the raw response that the verbs of
    [ADOHTTPClient] return (http_client.py is not part of the sources):
    the status code, and the body when it parses as JSON ([None] when it
    does not). *)
Record RawResponse : Type := {
  status_code : nat;
  body : option json
}.

(** Modelled from the spec: the exception taxonomy of exceptions.py, which
    is not part of the sources; both kinds are [ADOException]s. *)
Inductive ADOException : Type :=
| HttpFailure (cause : string)
| DecodeFailure (response : RawResponse).

(** The exceptions a run of the facade can end with. *)
Inductive Exception : Type :=
| ADOExn (e : ADOException)
| TypeError.

(** How a computation ends.  [OutOfFuel] is not a Python outcome: it marks
    a loop that is still running when the fuel given to it is spent. *)
Inductive Outcome (A : Type) : Type :=
| Returned (a : A)
| Raised (e : Exception)
| OutOfFuel.

Arguments Returned {A} a.
Arguments Raised {A} e.
Arguments OutOfFuel {A}.

(** An argument of a call: left out by the caller, or passed. *)
Inductive Arg (A : Type) : Type :=
| Omitted
| Passed (a : A).

Arguments Omitted {A}.
Arguments Passed {A} a.

(** Binding of a parameter that has a default value. *)
Definition with_default {A : Type} (default : A) (arg : Arg A) : A :=
  match arg with
  | Omitted => default
  | Passed a => a
  end.

(** Modelled from the spec: [ADOContext] of context.py, which is not part
    of the sources. *)
Record ADOContext : Type := {
  username : string;
  repository_id : string;
  status_context : string
}.

(** ** The effects of the HTTP client *)

(** The world a call runs in: the state of the remote server and the
    requests put on the wire so far, oldest first. *)
Record World (Server : Type) : Type := {
  server : Server;
  sent : list Request
}.

Arguments server {Server} w.
Arguments sent {Server} w.

(** Computations that talk to the server and may raise. *)
Definition M (Server A : Type) : Type :=
  World Server -> Outcome A * World Server.

Definition ret {Server A : Type} (a : A) : M Server A :=
  fun w => (Returned a, w).

Definition raise {Server A : Type} (e : Exception) : M Server A :=
  fun w => (Raised e, w).

Definition bind {Server A B : Type} (m : M Server A) (k : A -> M Server B)
  : M Server B :=
  fun w =>
    match m w with
    | (Returned a, w') => k a w'
    | (Raised e, w') => (Raised e, w')
    | (OutOfFuel, w') => (OutOfFuel, w')
    end.

(** [try: m  except ADOException: handler]; other exceptions pass. *)
Definition try_except_ADOException {Server A : Type}
    (m : M Server A) (handler : M Server A) : M Server A :=
  fun w =>
    match m w with
    | (Raised (ADOExn _), w') => handler w'
    | other => other
    end.

Declare Scope ado_scope.
Delimit Scope ado_scope with ado.
Notation "x <- m ;; k" := (bind m (fun x => k))
  (at level 61, m at next level, right associativity) : ado_scope.
Notation "m ;;; k" := (bind m (fun _ => k))
  (at level 61, right associativity) : ado_scope.

(** Modelled from the spec: what an [ADOHTTPClient] is made of, as far as
    the facade relies on it (http_client.py is not part of the sources):
    the base URL [base_url()] composes under its default flags, and the
    transport below the verbs, which answers a request with a raw response
    or fails with a cause, and moves the server on. *)
Record ADOHTTPClient (Server : Type) : Type := {
  base_url : string;
  transport : Request -> Server -> (string + RawResponse) * Server
}.

Arguments base_url {Server} a.
Arguments transport {Server} a.

Section Facade.

Context {Server : Type}.
Variable http_client : ADOHTTPClient Server.
Variable _context : ADOContext.

Open Scope ado_scope.

(** Modelled from the spec: the verbs of [ADOHTTPClient] (http_client.py is
    not part of the sources).  A request goes on the wire; a transport
    failure surfaces as an Http failure carrying the cause, with no retry. *)
Definition request (r : Request) : M Server RawResponse :=
  fun w =>
    let (reply, server') := transport http_client r (server w) in
    let w' := {| server := server'; sent := sent w ++ [r] |} in
    match reply with
    | inl cause => (Raised (ADOExn (HttpFailure cause)), w')
    | inr response => (Returned response, w')
    end.

Definition get (url : string) : M Server RawResponse :=
  request (GET url).

Definition post (url : string) (json_data : json) : M Server RawResponse :=
  request (POST url json_data).

(** Modelled from the spec: [ADOHTTPClient.decode_response] parses the body
    as the envelope and fails with a Decode failure carrying the raw
    response when the status is 4xx/5xx or the body does not parse. *)
Definition decode_response (response : RawResponse) : M Server json :=
  if ((400 <=? status_code response) && (status_code response <? 600))%nat
  then raise (ADOExn (DecodeFailure response))
  else match body response with
       | Some data => ret data
       | None => raise (ADOExn (DecodeFailure response))
       end.

(** Modelled from the spec: [ADOHTTPClient.extract_value] returns
    [body["value"]] when that key exists and the body itself otherwise. *)
Definition extract_value (response_data : json) : M Server json :=
  match response_data with
  | JObj fields =>
      match PyDict.get "value" fields with
      | Some value => ret value
      | None => ret response_data
      end
  | _ => ret response_data
  end.

(** [ADOClient.verify_access] *)
Definition verify_access : M Server bool :=
  let request_url := base_url http_client ++ "/git/repositories?api-version=1.0" in
  try_except_ADOException
    (response <- get request_url ;;
     response_data <- decode_response response ;;
     extract_value response_data ;;;
     ret true)
    (ret false).

(** [ADOClient.create_pull_request]; the three keyword arguments default
    to [None]. *)
Definition create_pull_request
    (source_branch target_branch : string)
    (title_arg description_arg : Arg (option string))
    (reviewer_ids_arg : Arg (option (list string))) : M Server json :=
  let title := with_default None title_arg in
  let description := with_default None description_arg in
  let reviewer_ids := with_default None reviewer_ids_arg in
  let request_url :=
    base_url http_client ++ "/git/repositories/" ++ repository_id _context in
  let request_url := request_url ++ "/pullRequests?api-version=5.1" in
  let body :=
    [ ("sourceRefName", JStr (_canonicalize_branch_name source_branch));
      ("targetRefName", JStr (_canonicalize_branch_name target_branch)) ] in
  let body :=
    match title with
    | Some t => PyDict.set "title" (JStr t) body
    | None => body
    end in
  let body :=
    match description with
    | Some d => PyDict.set "description" (JStr d) body
    | None => body
    end in
  let body :=
    match reviewer_ids with
    | Some ids =>
        if (0 <? List.length ids)%nat
        then PyDict.set "reviewers"
               (JArr (map (fun reviewer_id => JObj [("id", JStr reviewer_id)]) ids))
               body
        else body
    | None => body
    end in
  response <- post request_url (JObj body) ;;
  decode_response response.

(** The URL of one page request of [list_all_pull_requests]. *)
Definition pull_requests_page_url (branch_name : option string) (offset : nat)
  : string :=
  let request_url :=
    base_url http_client ++ "/git/repositories/" ++ repository_id _context
      ++ "/pullRequests?" in
  let request_url :=
    request_url ++ "$top=100&$skip=" ++ PyStr.format_int offset in
  let request_url :=
    match branch_name with
    | Some name =>
        request_url ++ "&sourceRefName=" ++ _canonicalize_branch_name name
    | None => request_url
    end in
  request_url ++ "&api-version=3.0-preview".

(** The [while True] loop of [ADOClient.list_all_pull_requests], entered
    with the current [offset] and [all_prs]; every iteration costs one unit
    of fuel. *)
Fixpoint list_all_pull_requests_loop (fuel : nat)
    (branch_name : option string) (offset : nat) (all_prs : list json)
  : M Server (list json) :=
  match fuel with
  | O => fun w => (OutOfFuel, w)
  | S fuel' =>
      let request_url := pull_requests_page_url branch_name offset in
      response <- get request_url ;;
      response_data <- decode_response response ;;
      extracted <- extract_value response_data ;;
      match py_len extracted with
      | None => raise TypeError
      | Some 0 => ret all_prs
      | Some (S _) =>
          match py_iter extracted with
          | None => raise TypeError
          | Some items =>
              list_all_pull_requests_loop fuel' branch_name
                (offset + 100) (all_prs ++ items)
          end
      end
  end.

(** [ADOClient.list_all_pull_requests] *)
Definition list_all_pull_requests (fuel : nat) (branch_name : Arg (option string))
  : M Server (list json) :=
  let branch_name := with_default None branch_name in
  let offset := 0 in
  let all_prs := [] in
  list_all_pull_requests_loop fuel branch_name offset all_prs.

End Facade.

(** ** The generic GET *)

Section CustomGet.

Context {Server : Type}.
Variable http_client : ADOHTTPClient Server.

(** Modelled from the spec: [ADOHTTPClient.base_url] with its three flags
    [is_default_collection], [is_project] and [is_internal] spelled out
    (http_client.py is not part of the sources); a pure function of the
    client's configuration and the flags. *)
Variable base_url_for : bool -> bool -> bool -> string.

(** [ADOClient.custom_get], for parameters that are strings; the three
    flags default to [True], [True] and [False]. *)
Definition custom_get (url_fragment : string)
    (parameters : list (string * string))
    (is_default_collection_arg is_project_arg is_internal_arg : Arg bool)
  : M Server RawResponse :=
  let is_default_collection := with_default true is_default_collection_arg in
  let is_project := with_default true is_project_arg in
  let is_internal := with_default false is_internal_arg in
  let encoded_parameters := UrlLib.urlencode parameters in
  let request_url :=
    base_url_for is_default_collection is_project is_internal in
  let request_url :=
    request_url ++ "/" ++ url_fragment ++ "?" ++ encoded_parameters in
  get http_client request_url.

End CustomGet.

(** ** Reading a request URL back *)

(** The query string of a URL: what lies between the first [?] and the
    fragment, which starts at the first [#]. *)
Definition url_query (url : string) : string :=
  let (before_fragment, _) := PyStr.partition "#" url in
  match snd (PyStr.partition "?" before_fragment) with
  | Some query => query
  | None => ""
  end.

(** One [name=value] piece of a query string, split at its first [=]. *)
Definition query_pair (piece : string) : string * string :=
  let (name, value) := PyStr.partition "=" piece in
  (name, match value with Some v => v | None => "" end).

(** The [name=value] pairs of the query string, split at [&], in order; no
    percent-decoding. *)
Definition query_params (url : string) : list (string * string) :=
  map query_pair (PyStr.split "&" (url_query url)).

(** The value of the first query parameter called [name]. *)
Definition query_param (name url : string) : option string :=
  PyDict.get name (query_params url).

(** What follows [$skip=...&] in the query of a page request. *)
Definition query_tail (branch_name : option string) : string :=
  match branch_name with
  | Some name =>
      "sourceRefName=" ++ _canonicalize_branch_name name
        ++ "&api-version=3.0-preview"
  | None => "api-version=3.0-preview"
  end.

(** A piece of URL path that opens neither a query nor a fragment. *)
Definition plain_path (s : string) : bool :=
  negb (PyStr.contains "?" s) && negb (PyStr.contains "#" s).

(** The query parameters of a URL with their percent-encoding undone. *)
Definition decoded_query_params (url : string) : list (string * string) :=
  map (fun kv => (UrlLib.unquote_plus (fst kv), UrlLib.unquote_plus (snd kv)))
      (query_params url).

(** The URL of a sent request. *)
Definition request_url (r : Request) : string :=
  match r with
  | GET url => url
  | POST url _ => url
  end.

(** ** The pages a server serves to the listing loop *)

(** The number of elements of a fetched page, when it has one. *)
Definition page_len (page : Outcome json) : option nat :=
  match page with
  | Returned extracted => py_len extracted
  | _ => None
  end.

(** The elements of a fetched page. *)
Definition page_items (page : Outcome json) : list json :=
  match page with
  | Returned extracted =>
      match py_iter extracted with
      | Some items => items
      | None => []
      end
  | _ => []
  end.

(** A page the loop goes on after: fetched, with at least one element. *)
Definition nonempty_page (page : Outcome json) : bool :=
  match page_len page with
  | Some (S _) => true
  | _ => false
  end.

(** A page the loop stops at with a result: fetched, with no element. *)
Definition empty_page (page : Outcome json) : bool :=
  match page_len page with
  | Some O => true
  | _ => false
  end.

(** What the loop ends with at a page it does not go on after, holding
    [all_prs] so far: the result at an empty page, the page's exception, or
    the [TypeError] of [len] on a payload that has no length. *)
Definition page_stop (all_prs : list json) (page : Outcome json)
  : Outcome (list json) :=
  match page with
  | Returned extracted =>
      match py_len extracted with
      | Some O => Returned all_prs
      | _ => Raised TypeError
      end
  | Raised e => Raised e
  | OutOfFuel => OutOfFuel
  end.

Section Pages.

Context {Server : Type}.
Variable http_client : ADOHTTPClient Server.
Variable _context : ADOContext.
Variable branch_name : option string.

Open Scope ado_scope.

(** One round of the loop up to the length test: get, decode, extract. *)
Definition fetch_page (offset : nat) : M Server json :=
  response <- get http_client
                (pull_requests_page_url http_client _context branch_name offset) ;;
  response_data <- decode_response response ;;
  extract_value response_data.

(** The outcomes of fetching pages [k], [k+1], ..., [k+n-1] one after the
    other, page [i] at offset [100 * i], starting in world [w]. *)
Fixpoint served_pages (n k : nat) (w : World Server) : list (Outcome json) :=
  match n with
  | O => []
  | S n' =>
      let (page, w') := fetch_page (100 * k) w in
      page :: served_pages n' (S k) w'
  end.

(** The world those [n] fetches leave behind. *)
Fixpoint world_after (n k : nat) (w : World Server) : World Server :=
  match n with
  | O => w
  | S n' => world_after n' (S k) (snd (fetch_page (100 * k) w))
  end.

(** The outcome of fetching page [k + i] when the loop is about to fetch
    page [k] in world [w] and has fetched [i] more pages since. *)
Definition page_from (k i : nat) (w : World Server) : Outcome json :=
  fst (fetch_page (100 * (k + i)) (world_after i k w)).

(** The outcome of fetching page [i] when the loop starts in world [w]. *)
Definition page_at (i : nat) (w : World Server) : Outcome json :=
  page_from 0 i w.

(** The elements of pages [k], ..., [k+n-1], in request order. *)
Definition pages_items (k n : nat) (w : World Server) : list json :=
  concat (map (fun i => page_items (page_from k i w)) (seq 0 n)).

(** The page requests [k], ..., [k+n-1]. *)
Definition page_requests (n k : nat) : list Request :=
  map (fun i => GET (pull_requests_page_url http_client _context branch_name (100 * i)))
      (seq k n).

End Pages.

(** ** Test doubles *)

Module Fake.

(** A server that answers its [i]-th request with the [i]-th reply of a
    script, whatever is asked, and with [fallback] once the script is over;
    its state is the number of requests seen. *)
Definition scripted (script : list (string + RawResponse))
    (fallback : string + RawResponse) : ADOHTTPClient nat :=
  {| base_url := "https://contoso/DefaultCollection/proj/_apis";
     transport := fun _ i => (nth i script fallback, S i) |}.

Definition context : ADOContext :=
  {| username := "user"; repository_id := "repo"; status_context := "ci" |}.

Definition pull_request (id : nat) : json :=
  JObj [("pullRequestId", JNum id)].

(** A 200 response whose envelope holds the pull requests
    [start], ..., [start + count - 1]. *)
Definition page (start count : nat) : string + RawResponse :=
  inr {| status_code := 200;
         body := Some (JObj [("value", JArr (map pull_request (seq start count)));
                             ("count", JNum count)]) |}.

Definition start : World nat := {| server := 0; sent := [] |}.

(** Pages of 100, 100, 37 and 0 pull requests. *)
Definition four_pages : ADOHTTPClient nat :=
  scripted [page 0 100; page 100 100; page 200 37] (page 237 0).

(** Pages of 3, 250 and 1 pull requests, then an empty one. *)
Definition uneven_pages : ADOHTTPClient nat :=
  scripted [page 0 3; page 3 250; page 253 1] (page 254 0).

(** One pull request per page, for ever. *)
Definition endless : ADOHTTPClient nat :=
  scripted [] (page 0 1).

(** Two pages, then the connection drops. *)
Definition dropping : ADOHTTPClient nat :=
  scripted [page 0 100; page 100 100] (inl "connection reset").

(** One page, then a 500 with an unparseable body. *)
Definition erroring : ADOHTTPClient nat :=
  scripted [page 0 100] (inr {| status_code := 500; body := None |}).

(** No access: every request is answered 401. *)
Definition unauthorized : ADOHTTPClient nat :=
  scripted [] (inr {| status_code := 401; body := Some (JObj []) |}).

End Fake.

(** * Properties *)

(** ** Strings *)

Lemma startswith_app (p s : string) : PyStr.startswith p (p ++ s) = true.
Proof.
  induction p as [|a p IH]; simpl; [reflexivity|].
  now rewrite Ascii.eqb_refl, IH.
Qed.

Lemma contains_app (c : ascii) (s t : string) :
  PyStr.contains c (s ++ t) = PyStr.contains c s || PyStr.contains c t.
Proof.
  induction s as [|a s IH]; simpl; [reflexivity|].
  now rewrite IH, orb_assoc.
Qed.

Lemma append_empty_r (s : string) : s ++ "" = s.
Proof. induction s; simpl; congruence. Qed.

Lemma partition_app (c : ascii) (s t : string) :
  PyStr.contains c s = false ->
  PyStr.partition c (s ++ t) =
    (s ++ fst (PyStr.partition c t), snd (PyStr.partition c t)).
Proof.
  induction s as [|a s IH]; simpl; intros H.
  - now destruct (PyStr.partition c t).
  - apply orb_false_iff in H as [Ha Hs]. rewrite Ha, (IH Hs). reflexivity.
Qed.

Lemma partition_absent (c : ascii) (s : string) :
  PyStr.contains c s = false -> PyStr.partition c s = (s, None).
Proof.
  induction s as [|a s IH]; simpl; intros H; [reflexivity|].
  apply orb_false_iff in H as [Ha Hs]. now rewrite Ha, (IH Hs).
Qed.

Lemma partition_at (c : ascii) (s t : string) :
  PyStr.contains c s = false ->
  PyStr.partition c (s ++ String c t) = (s, Some t).
Proof.
  intros H. rewrite (partition_app _ _ _ H). simpl.
  rewrite Ascii.eqb_refl. simpl. now rewrite append_empty_r.
Qed.

Lemma split_at (c : ascii) (s t : string) :
  PyStr.contains c s = false ->
  PyStr.split c (s ++ String c t) = s :: PyStr.split c t.
Proof.
  induction s as [|a s IH]; simpl; intros H.
  - now rewrite Ascii.eqb_refl.
  - apply orb_false_iff in H as [Ha Hs]. now rewrite Ha, (IH Hs).
Qed.

Lemma split_absent (c : ascii) (s : string) :
  PyStr.contains c s = false -> PyStr.split c s = [s].
Proof.
  induction s as [|a s IH]; simpl; intros H; [reflexivity|].
  apply orb_false_iff in H as [Ha Hs]. now rewrite Ha, (IH Hs).
Qed.

Lemma format_int_digits (c : ascii) (n : nat) :
  is_digit c = false -> PyStr.contains c (PyStr.format_int n) = false.
Proof.
  intros Hc. unfold PyStr.format_int.
  assert (Hne : forall d, PyStr.contains c (NilEmpty.string_of_uint d) = false).
  { unfold is_digit in Hc. simpl in Hc.
    repeat (apply orb_false_iff in Hc; destruct Hc as [? Hc]).
    induction d; simpl; rewrite ?IHd; auto; rewrite ?orb_false_r; assumption. }
  destruct (Nat.to_uint n) eqn:E; simpl; rewrite ?Hne, ?orb_false_r; auto;
    unfold is_digit in Hc; simpl in Hc;
    repeat (apply orb_false_iff in Hc; destruct Hc as [? Hc]); assumption.
Qed.

Lemma append_assoc (s t u : string) : (s ++ t) ++ u = s ++ t ++ u.
Proof. induction s; simpl; congruence. Qed.

(** ** The page URL and its query parameters *)

Section PageUrl.

Context {Server : Type}.
Variable http_client : ADOHTTPClient Server.
Variable _context : ADOContext.

Lemma page_url_shape (branch_name : option string) (offset : nat) :
  pull_requests_page_url http_client _context branch_name offset =
    (base_url http_client ++ "/git/repositories/" ++ repository_id _context
       ++ "/pullRequests")
    ++ String "?" ("$top=100&$skip="
         ++ PyStr.format_int offset ++ String "&" (query_tail branch_name)).
Proof.
  unfold pull_requests_page_url, query_tail.
  destruct branch_name as [name|]; repeat rewrite append_assoc; reflexivity.
Qed.

Hypothesis plain_base : plain_path (base_url http_client) = true.
Hypothesis plain_repository : plain_path (repository_id _context) = true.

Lemma page_url_path_plain (c : ascii) :
  c = "?"%char \/ c = "#"%char ->
  PyStr.contains c
    (base_url http_client ++ "/git/repositories/" ++ repository_id _context
       ++ "/pullRequests") = false.
Proof.
  unfold plain_path in *.
  apply andb_true_iff in plain_base as [B1 B2].
  apply andb_true_iff in plain_repository as [R1 R2].
  apply negb_true_iff in B1, B2, R1, R2.
  intros [-> | ->]; repeat rewrite contains_app;
    rewrite ?B1, ?B2, ?R1, ?R2; reflexivity.
Qed.

(** The query of a page request, up to the fragment a branch name with a
    [#] in it would open. *)
Lemma page_url_query (branch_name : option string) (offset : nat) :
  url_query (pull_requests_page_url http_client _context branch_name offset) =
    "$top=100&$skip=" ++ PyStr.format_int offset
      ++ String "&" (fst (PyStr.partition "#" (query_tail branch_name))).
Proof.
  rewrite page_url_shape. unfold url_query.
  rewrite partition_app by (apply page_url_path_plain; now right).
  cbn [fst snd PyStr.partition append Ascii.eqb Bool.eqb].
  rewrite (partition_app "#" (PyStr.format_int offset))
    by (apply format_int_digits; reflexivity).
  cbn [fst snd PyStr.partition append Ascii.eqb Bool.eqb].
  destruct (PyStr.partition "#" (query_tail branch_name)) as [tail rest].
  cbn [fst snd].
  rewrite partition_at by (apply page_url_path_plain; now left).
  reflexivity.
Qed.

(** Every page request asks for pages of 100 at the offset it was built
    with, whatever the branch name. *)
Lemma page_url_pieces (branch_name : option string) (offset : nat) :
  PyStr.split "&"
    (url_query (pull_requests_page_url http_client _context branch_name offset))
  = "$top=100" :: ("$skip" ++ String "=" (PyStr.format_int offset))
      :: PyStr.split "&" (fst (PyStr.partition "#" (query_tail branch_name))).
Proof.
  rewrite page_url_query.
  set (tail := fst (PyStr.partition "#" (query_tail branch_name))).
  change ("$top=100&$skip=" ++ PyStr.format_int offset ++ String "&" tail)
    with ("$top=100" ++ String "&"
            ("$skip=" ++ PyStr.format_int offset ++ String "&" tail)).
  rewrite split_at by reflexivity. f_equal.
  assert (H : PyStr.contains "&" ("$skip=" ++ PyStr.format_int offset) = false).
  { rewrite contains_app, format_int_digits; reflexivity. }
  pose proof (split_at "&" _ tail H) as E.
  rewrite append_assoc in E. exact E.
Qed.

Lemma query_pair_at (name value : string) :
  PyStr.contains "=" name = false ->
  query_pair (name ++ String "=" value) = (name, value).
Proof. intros H. unfold query_pair. now rewrite partition_at. Qed.

(** Every page request asks for pages of 100 at the offset it was built
    with, whatever the branch name. *)
Lemma page_url_top_skip (branch_name : option string) (offset : nat) :
  query_param "$top"
    (pull_requests_page_url http_client _context branch_name offset)
    = Some "100"
  /\ query_param "$skip"
       (pull_requests_page_url http_client _context branch_name offset)
     = Some (PyStr.format_int offset).
Proof.
  unfold query_param, query_params. rewrite page_url_pieces.
  cbn [map]. rewrite (query_pair_at "$skip") by reflexivity.
  split; reflexivity.
Qed.



End PageUrl.

(** ** The listing loop, one page at a time *)

Section Listing.

Context {Server : Type}.
Variable http_client : ADOHTTPClient Server.
Variable _context : ADOContext.
Variable branch_name : option string.

Local Open Scope list_scope.

Local Notation fetch := (fetch_page http_client _context branch_name).
Local Notation loop :=
  (list_all_pull_requests_loop http_client _context).
Local Notation page := (page_from http_client _context branch_name).
Local Notation after := (world_after http_client _context branch_name).
Local Notation items := (pages_items http_client _context branch_name).

(** One iteration, read off the fetched page. *)
Lemma loop_step (fuel offset : nat) (all_prs : list json) (w : World Server) :
  loop (S fuel) branch_name offset all_prs w =
    match fetch offset w with
    | (Returned extracted, w') =>
        match py_len extracted, py_iter extracted with
        | Some (S _), Some more =>
            loop fuel branch_name (offset + 100) (all_prs ++ more) w'
        | _, _ => (page_stop all_prs (Returned extracted), w')
        end
    | (other, w') => (page_stop all_prs other, w')
    end.
Proof.
  cbn [list_all_pull_requests_loop]. unfold fetch_page, bind.
  destruct (get _ _ w) as [[response | e |] w1]; try reflexivity.
  destruct (decode_response response w1) as [[data | e |] w2]; try reflexivity.
  destruct (extract_value data w2) as [[extracted | e |] w3]; try reflexivity.
  cbn [page_stop]. unfold ret, raise.
  destruct (py_len extracted) as [[|n]|]; try reflexivity.
  destruct (py_iter extracted); reflexivity.
Qed.

Lemma py_iter_defined (x : json) (n : nat) :
  py_len x = Some n -> exists more, py_iter x = Some more.
Proof. destruct x; simpl; intros H; try discriminate; eauto. Qed.

Lemma py_iter_length (x : json) (n : nat) (more : list json) :
  py_len x = Some n -> py_iter x = Some more -> List.length more = n.
Proof.
  destruct x; simpl; intros H1 H2; try discriminate;
    injection H1 as <-; injection H2 as <-.
  - induction s; simpl; congruence.
  - reflexivity.
  - unfold PyDict.keys. now rewrite !length_map.
Qed.

(** A fetch always comes back: with a payload or with an exception. *)
Lemma fetch_not_out_of_fuel (offset : nat) (w : World Server) :
  fst (fetch offset w) <> OutOfFuel.
Proof.
  unfold fetch_page, bind, get, request.
  destruct (transport _ _ _) as [[cause | response] s']; cbn; [discriminate|].
  unfold decode_response.
  destruct (_ && _); cbn; [discriminate|].
  destruct (body response) as [data|]; cbn; [|discriminate].
  unfold extract_value.
  destruct data; cbn; try discriminate.
  destruct (PyDict.get _ _); cbn; discriminate.
Qed.

(** A fetch puts exactly its own request on the wire. *)
Lemma fetch_sent (offset : nat) (w : World Server) :
  sent (snd (fetch offset w)) =
    sent w ++ [GET (pull_requests_page_url http_client _context branch_name offset)].
Proof.
  unfold fetch_page, bind, get, request.
  destruct (transport _ _ _) as [[cause | response] s']; cbn; [reflexivity|].
  unfold decode_response.
  destruct (_ && _); cbn; [reflexivity|].
  destruct (body response) as [data|]; cbn; [|reflexivity].
  unfold extract_value.
  destruct data; cbn; try reflexivity.
  destruct (PyDict.get _ _); reflexivity.
Qed.

Lemma page_from_0 (k : nat) (w : World Server) :
  page k 0 w = fst (fetch (100 * k) w).
Proof. unfold page_from. now rewrite Nat.add_0_r. Qed.

Lemma page_from_S (k i : nat) (w : World Server) :
  page k (S i) w = page (S k) i (snd (fetch (100 * k) w)).
Proof. unfold page_from. cbn [world_after]. now rewrite Nat.add_succ_r. Qed.

Lemma pages_items_S (k n : nat) (w : World Server) :
  items k (S n) w =
    page_items (page k 0 w) ++ items (S k) n (snd (fetch (100 * k) w)).
Proof.
  unfold pages_items. cbn [seq map concat]. f_equal.
  rewrite <- seq_shift, map_map. f_equal.
  apply map_ext. intros i. now rewrite page_from_S.
Qed.

Lemma nonempty_page_inv (p : Outcome json) :
  nonempty_page p = true ->
  exists extracted n more,
    p = Returned extracted /\ py_len extracted = Some (S n)
    /\ py_iter extracted = Some more /\ page_items p = more.
Proof.
  unfold nonempty_page, page_len. destruct p as [x | e |]; try discriminate.
  destruct (py_len x) as [[|n]|] eqn:L; try discriminate. intros _.
  destruct (py_iter_defined x _ L) as [more I].
  exists x, n, more. cbn. now rewrite I.
Qed.

(** The whole run: with [fuel] iterations at hand the loop either stops at
    the first page that is not a non-empty one, with what [page_stop] says,
    or finds [fuel] non-empty pages and is still running. *)
Lemma loop_run (fuel k : nat) (all_prs : list json) (w : World Server) :
  (exists n,
      n < fuel
      /\ (forall i, i < n -> nonempty_page (page k i w) = true)
      /\ nonempty_page (page k n w) = false
      /\ loop fuel branch_name (100 * k) all_prs w =
           (page_stop (all_prs ++ items k n w) (page k n w), after (S n) k w))
  \/ ((forall i, i < fuel -> nonempty_page (page k i w) = true)
      /\ loop fuel branch_name (100 * k) all_prs w =
           (OutOfFuel, after fuel k w)).
Proof.
  revert k all_prs w.
  induction fuel as [|fuel IH]; intros k all_prs w.
  { right. split; [intros i Hi; lia | reflexivity]. }
  rewrite loop_step.
  destruct (nonempty_page (page k 0 w)) eqn:N.
  - destruct (nonempty_page_inv _ N) as (x & m & more & Hp & L & I & Hmore).
    rewrite page_from_0 in Hp.
    assert (Hshift : forall i,
              (forall j, j < Nat.pred i ->
                 nonempty_page (page (S k) j (snd (fetch (100 * k) w))) = true) ->
              forall j, j < i -> nonempty_page (page k j w) = true).
    { intros i H [|j] Hj; [exact N|].
      rewrite page_from_S. apply H. lia. }
    cbn [world_after].
    destruct (fetch (100 * k) w) as [o w1] eqn:F. cbn [fst snd] in *. subst o.
    rewrite L, I.
    replace (100 * k + 100) with (100 * S k) by lia.
    destruct (IH (S k) (all_prs ++ more) w1)
      as [(n & Hn & Hall & Hstop & Hrun) | (Hall & Hrun)].
    + left. exists (S n). repeat split.
      * lia.
      * apply Hshift. exact Hall.
      * rewrite page_from_S, F. exact Hstop.
      * rewrite Hrun, pages_items_S, !page_from_S, page_from_0, F.
        cbn [fst snd page_items]. rewrite I, app_assoc. reflexivity.
    + right. split; [|exact Hrun].
      apply Hshift. exact Hall.
  - left. exists 0. repeat split.
    + lia.
    + intros i Hi; lia.
    + exact N.
    + unfold pages_items. cbn [seq map concat world_after].
      rewrite app_nil_r. rewrite page_from_0 in *.
      destruct (fetch (100 * k) w) as [[x | e |] w1]; cbn [fst snd] in *;
        try reflexivity.
      unfold nonempty_page, page_len in N.
      destruct (py_len x) as [[|m]|]; try discriminate;
        destruct (py_iter x); reflexivity.
Qed.

(** The first page that is not a non-empty one is unique. *)
Lemma first_stop_unique (p : nat -> Outcome json) (n m : nat) :
  (forall i, i < n -> nonempty_page (p i) = true) ->
  nonempty_page (p n) = false ->
  (forall i, i < m -> nonempty_page (p i) = true) ->
  nonempty_page (p m) = false ->
  n = m.
Proof.
  intros Hn Sn Hm Sm.
  destruct (Nat.lt_trichotomy n m) as [H | [H | H]]; [|exact H|].
  - rewrite (Hm n H) in Sn. discriminate.
  - rewrite (Hn m H) in Sm. discriminate.
Qed.

(** With enough fuel the loop stops at the first such page. *)
Lemma loop_stops (n k fuel : nat) (all_prs : list json) (w : World Server) :
  (forall i, i < n -> nonempty_page (page k i w) = true) ->
  nonempty_page (page k n w) = false ->
  n < fuel ->
  loop fuel branch_name (100 * k) all_prs w =
    (page_stop (all_prs ++ items k n w) (page k n w), after (S n) k w).
Proof.
  intros Hall Hstop Hfuel.
  destruct (loop_run fuel k all_prs w)
    as [(m & Hm & Hall' & Hstop' & Hrun) | (Hall' & _)].
  - now rewrite (first_stop_unique (fun i => page k i w) n m).
  - rewrite (Hall' n Hfuel) in Hstop. discriminate.
Qed.

(** Without enough fuel it is still running. *)
Lemma loop_running (k fuel : nat) (all_prs : list json) (w : World Server) :
  (forall i, i < fuel -> nonempty_page (page k i w) = true) ->
  loop fuel branch_name (100 * k) all_prs w = (OutOfFuel, after fuel k w).
Proof.
  intros Hall.
  destruct (loop_run fuel k all_prs w)
    as [(m & Hm & _ & Hstop & _) | (_ & Hrun)]; [|exact Hrun].
  rewrite (Hall m Hm) in Hstop. discriminate.
Qed.

(** The requests of [n] fetches, in order. *)
Lemma world_after_sent (n k : nat) (w : World Server) :
  sent (after n k w) =
    sent w ++ page_requests http_client _context branch_name n k.
Proof.
  revert k w. induction n as [|n IH]; intros k w; cbn [world_after].
  - unfold page_requests. cbn. now rewrite app_nil_r.
  - rewrite IH, fetch_sent. unfold page_requests. cbn [seq map].
    now rewrite <- app_assoc.
Qed.

Lemma page_stop_not_out_of_fuel (all_prs : list json) (k n : nat)
    (w : World Server) :
  page_stop all_prs (page k n w) <> OutOfFuel.
Proof.
  unfold page_from.
  pose proof (fetch_not_out_of_fuel (100 * (k + n)) (after n k w)) as H.
  destruct (fst (fetch _ _)) as [x | e |]; cbn; try discriminate; [|easy].
  destruct (py_len x) as [[|m]|]; discriminate.
Qed.

Lemma empty_page_stop (all_prs : list json) (p : Outcome json) :
  empty_page p = true ->
  nonempty_page p = false /\ page_stop all_prs p = Returned all_prs.
Proof.
  unfold empty_page, nonempty_page, page_stop, page_len.
  destruct p as [x | e |]; try discriminate.
  destruct (py_len x) as [[|m]|]; try discriminate. now split.
Qed.

Lemma page_stop_returned (all_prs result : list json) (p : Outcome json) :
  page_stop all_prs p = Returned result ->
  empty_page p = true /\ result = all_prs.
Proof.
  unfold empty_page, page_stop, page_len.
  destruct p as [x | e |]; try discriminate.
  destruct (py_len x) as [[|m]|]; try discriminate.
  intros H. injection H as <-. now split.
Qed.

End Listing.

(** ** Branch-name canonicalization *)

(** C6. Canonicalization is idempotent: for every string, canonicalizing
    twice yields the same string as canonicalizing once. *)
Theorem canonicalize_idempotent (s : string) :
  _canonicalize_branch_name (_canonicalize_branch_name s) =
    _canonicalize_branch_name s.
Proof.
  unfold _canonicalize_branch_name.
  destruct (PyStr.startswith "refs/heads/" s) eqn:E; cbn [negb].
  - now rewrite E.
  - now rewrite startswith_app.
Qed.

(** C7. ["main"] becomes ["refs/heads/main"] and ["refs/heads/main"] stays
    as it is; in general a name that does not start with [refs/heads/] gets
    that prefix and a name that starts with it passes through unchanged. *)
Theorem canonicalize_prefixes_bare_names :
  _canonicalize_branch_name "main" = "refs/heads/main"
  /\ _canonicalize_branch_name "refs/heads/main" = "refs/heads/main"
  /\ (forall s, PyStr.startswith "refs/heads/" s = false ->
        _canonicalize_branch_name s = "refs/heads/" ++ s)
  /\ (forall s, PyStr.startswith "refs/heads/" s = true ->
        _canonicalize_branch_name s = s).
Proof.
  repeat split; try reflexivity;
    intros s H; unfold _canonicalize_branch_name; now rewrite H.
Qed.

Lemma canonicalize_prefixes_bare_names_witness :
  _canonicalize_branch_name "feature/login" = "refs/heads/feature/login"
  /\ _canonicalize_branch_name "refs/heads/release" = "refs/heads/release".
Proof.
  destruct canonicalize_prefixes_bare_names as (_ & _ & Hbare & Hprefixed).
  split; [apply Hbare | apply Hprefixed]; reflexivity.
Defined.

(** ** Creating a pull request *)

Section CreatePullRequest.

Context {Server : Type}.
Variable http_client : ADOHTTPClient Server.
Variable _context : ADOContext.

Local Open Scope list_scope.

Lemma decode_response_world (response : RawResponse) (w : World Server) :
  snd (decode_response response w) = w.
Proof.
  unfold decode_response.
  destruct (_ && _); [reflexivity|]. now destruct (body response).
Qed.

Lemma extract_value_returns (response_data : json) (w : World Server) :
  exists value, extract_value response_data w = (Returned value, w).
Proof.
  unfold extract_value, ret.
  destruct response_data; eauto. destruct (PyDict.get _ _); eauto.
Qed.

(** Posting and decoding puts exactly the posted request on the wire. *)
Lemma post_decode_sent (url : string) (json_data : json) (w : World Server) :
  sent (snd (bind (post http_client url json_data) decode_response w)) =
    sent w ++ [POST url json_data].
Proof.
  unfold bind, post, request.
  destruct (transport _ _ _) as [[cause | response] s']; [reflexivity|].
  now rewrite decode_response_world.
Qed.

(** C4. Called with the two branches only, [create_pull_request] posts a
    body with exactly the keys [sourceRefName] and [targetRefName], each
    holding the canonicalized name; with [reviewer_ids=["a","b"]] the body
    also holds [reviewers: [{"id":"a"},{"id":"b"}]]; with [reviewer_ids=[]]
    no [reviewers] key is added. *)
Theorem create_pull_request_body (source_branch target_branch : string)
    (w : World Server) :
  let url :=
    ((base_url http_client ++ "/git/repositories/" ++ repository_id _context)
       ++ "/pullRequests?api-version=5.1")%string in
  let refs :=
    [ ("sourceRefName", JStr (_canonicalize_branch_name source_branch));
      ("targetRefName", JStr (_canonicalize_branch_name target_branch)) ] in
  let posts reviewer_ids :=
    sent (snd (create_pull_request http_client _context
                 source_branch target_branch Omitted Omitted reviewer_ids w)) in
  posts Omitted = sent w ++ [POST url (JObj refs)]
  /\ PyDict.keys refs = ["sourceRefName"; "targetRefName"]
  /\ posts (Passed (Some ["a"; "b"])) =
       sent w ++
       [POST url
          (JObj (refs ++
                 [("reviewers",
                   JArr [JObj [("id", JStr "a")]; JObj [("id", JStr "b")]])]))]
  /\ posts (Passed (Some [])) = sent w ++ [POST url (JObj refs)].
Proof.
  cbv zeta. unfold create_pull_request. cbn [with_default].
  repeat split; apply post_decode_sent.
Qed.

(** C10. Passing [title=None] or [description=None] is the same call as
    leaving the argument out, and in both cases the posted body has no
    such key. *)
Theorem create_pull_request_none_is_omitted
    (source_branch target_branch : string)
    (title description : Arg (option string))
    (reviewer_ids : Arg (option (list string))) (w : World Server) :
  let create := create_pull_request http_client _context
                  source_branch target_branch in
  create (Passed None) description reviewer_ids w =
    create Omitted description reviewer_ids w
  /\ create title (Passed None) reviewer_ids w =
       create title Omitted reviewer_ids w
  /\ (exists url fields,
        sent (snd (create (Passed None) description reviewer_ids w)) =
          sent w ++ [POST url (JObj fields)]
        /\ PyDict.get "title" fields = None)
  /\ (exists url fields,
        sent (snd (create title (Passed None) reviewer_ids w)) =
          sent w ++ [POST url (JObj fields)]
        /\ PyDict.get "description" fields = None).
Proof.
  cbv zeta. split; [reflexivity|]. split; [reflexivity|].
  unfold create_pull_request. cbn [with_default].
  split; eexists; eexists; (split; [apply post_decode_sent|]).
  - destruct description as [|[d|]], reviewer_ids as [|[[|id ids]|]];
      reflexivity.
  - destruct title as [|[t|]], reviewer_ids as [|[[|id ids]|]];
      reflexivity.
Qed.

End CreatePullRequest.

(** ** Verifying access *)

Section VerifyAccess.

Context {Server : Type}.
Variable http_client : ADOHTTPClient Server.

Lemma get_raises_ado (url : string) (w w' : World Server) (e : Exception) :
  get http_client url w = (Raised e, w') -> exists a, e = ADOExn a.
Proof.
  unfold get, request.
  destruct (transport _ _ _) as [[cause | response] s']; intros H;
    inversion H; eauto.
Qed.

Lemma decode_response_raises_ado (response : RawResponse)
    (w w' : World Server) (e : Exception) :
  decode_response response w = (Raised e, w') -> exists a, e = ADOExn a.
Proof.
  unfold decode_response, raise, ret.
  destruct (_ && _); [|destruct (body response)]; intros H;
    inversion H; eauto.
Qed.

Lemma get_not_out_of_fuel (url : string) (w : World Server) :
  fst (get http_client url w) <> OutOfFuel.
Proof.
  unfold get, request.
  destruct (transport _ _ _) as [[cause | response] s']; discriminate.
Qed.

Lemma decode_response_not_out_of_fuel (response : RawResponse)
    (w : World Server) :
  fst (decode_response response w) <> OutOfFuel.
Proof.
  unfold decode_response, raise, ret.
  destruct (_ && _); [|destruct (body response)]; discriminate.
Qed.

(** C5. [verify_access] returns [True] when get and decode (and the
    extraction after them) go through, [False] when the get raises its
    Http failure or the decode its Decode failure, and in every case it
    returns a boolean: no exception reaches the caller. *)
Theorem verify_access_never_raises (w : World Server) :
  let request_url :=
    (base_url http_client ++ "/git/repositories?api-version=1.0")%string in
  (forall response w1 response_data w2,
      get http_client request_url w = (Returned response, w1) ->
      decode_response response w1 = (Returned response_data, w2) ->
      verify_access http_client w = (Returned true, w2))
  /\ (forall e w1,
        get http_client request_url w = (Raised e, w1) ->
        verify_access http_client w = (Returned false, w1))
  /\ (forall response w1 e w2,
        get http_client request_url w = (Returned response, w1) ->
        decode_response response w1 = (Raised e, w2) ->
        verify_access http_client w = (Returned false, w2))
  /\ (exists b w', verify_access http_client w = (Returned b, w')).
Proof.
  cbv zeta. unfold verify_access, try_except_ADOException, bind.
  repeat split.
  - intros response w1 data w2 G D. rewrite G, D.
    destruct (extract_value_returns data w2) as [value ->]. reflexivity.
  - intros e w1 G. rewrite G.
    destruct (get_raises_ado _ _ _ _ G) as [a ->]. reflexivity.
  - intros response w1 e w2 G D. rewrite G, D.
    destruct (decode_response_raises_ado _ _ _ _ D) as [a ->]. reflexivity.
  - destruct (get http_client _ w) as [[response | e |] w1] eqn:G.
    + destruct (decode_response response w1) as [[data | e |] w2] eqn:D.
      * destruct (extract_value_returns data w2) as [value ->].
        unfold ret. eauto.
      * destruct (decode_response_raises_ado _ _ _ _ D) as [a ->].
        unfold ret. eauto.
      * pose proof (decode_response_not_out_of_fuel response w1) as H.
        rewrite D in H. now contradiction H.
    + destruct (get_raises_ado _ _ _ _ G) as [a ->]. unfold ret. eauto.
    + pose proof (get_not_out_of_fuel
                    (base_url http_client ++ "/git/repositories?api-version=1.0")
                    w) as H.
      rewrite G in H. now contradiction H.
Qed.

End VerifyAccess.

Lemma verify_access_never_raises_witness :
  verify_access Fake.four_pages Fake.start
    = (Returned true, {| server := 1;
                         sent := [GET "https://contoso/DefaultCollection/proj/_apis/git/repositories?api-version=1.0"] |})
  /\ verify_access Fake.unauthorized Fake.start
    = (Returned false, {| server := 1;
                          sent := [GET "https://contoso/DefaultCollection/proj/_apis/git/repositories?api-version=1.0"] |})
  /\ verify_access (Fake.scripted [] (inl "timed out")) Fake.start
    = (Returned false, {| server := 1;
                          sent := [GET "https://contoso/DefaultCollection/proj/_apis/git/repositories?api-version=1.0"] |}).
Proof.
  split; [|split].
  - destruct (verify_access_never_raises Fake.four_pages Fake.start)
      as (Hok & _).
    eapply Hok; reflexivity.
  - destruct (verify_access_never_raises Fake.unauthorized Fake.start)
      as (_ & _ & Hdecode & _).
    eapply Hdecode; reflexivity.
  - destruct (verify_access_never_raises
                (Fake.scripted [] (inl "timed out")) Fake.start)
      as (_ & Hget & _).
    eapply Hget; reflexivity.
Defined.

(** ** Listing all pull requests *)

Section ListAllPullRequests.

Context {Server : Type}.
Variable http_client : ADOHTTPClient Server.
Variable _context : ADOContext.

Local Open Scope list_scope.

Local Notation list_all := (list_all_pull_requests http_client _context).
Local Notation page_url := (pull_requests_page_url http_client _context).
Local Notation pages := (served_pages http_client _context).
Local Notation page_of := (page_at http_client _context).
Local Notation after := (world_after http_client _context).
Local Notation items := (pages_items http_client _context).
Local Notation requests := (page_requests http_client _context).

Lemma served_pages_map (branch : option string) (n k : nat) (w : World Server) :
  pages branch n k w =
    map (fun i => page_from http_client _context branch k i w) (seq 0 n).
Proof.
  revert k w. induction n as [|n IH]; intros k w; [reflexivity|].
  cbn [served_pages seq map].
  rewrite page_from_0.
  destruct (fetch_page http_client _context branch (100 * k) w) as [p w1] eqn:F.
  cbn [fst]. f_equal.
  rewrite IH, <- seq_shift, map_map.
  apply map_ext. intros i. now rewrite page_from_S, F.
Qed.

Lemma page_items_length (p : Outcome json) (n : nat) :
  page_len p = Some n -> List.length (page_items p) = n.
Proof.
  destruct p as [x | e |]; cbn; try discriminate. intros L.
  destruct (py_iter_defined x n L) as [more I]. rewrite I.
  exact (py_iter_length x n more L I).
Qed.

Lemma page_len_nonempty (p : Outcome json) (n : nat) :
  page_len p = Some (S n) -> nonempty_page p = true.
Proof. unfold nonempty_page. now intros ->. Qed.

Lemma page_len_empty (p : Outcome json) :
  page_len p = Some 0 -> empty_page p = true.
Proof. unfold empty_page. now intros ->. Qed.

Lemma nth_page_request (branch : option string) (n k : nat) :
  k < n ->
  nth_error (requests branch n 0) k = Some (GET (page_url branch (100 * k))).
Proof.
  intros H. unfold page_requests.
  rewrite nth_error_map, nth_error_nth' with (d := 0)
    by (now rewrite length_seq).
  now rewrite seq_nth.
Qed.

(** C1. When the server answers the first four page requests with pages of
    100, 100, 37 and 0 elements, [list_all_pull_requests] returns the three
    non-empty pages concatenated, 237 elements in all, and sends exactly
    four requests, at offsets 0, 100, 200 and 300: the [$skip] values
    ["0"], ["100"], ["200"], ["300"]. *)
Theorem list_all_pull_requests_four_pages
    (branch_name : Arg (option string)) (w : World Server) :
  let branch := with_default None branch_name in
  map page_len (pages branch 4 0 w) = [Some 100; Some 100; Some 37; Some 0] ->
  exists all_prs w',
    (forall fuel, 4 <= fuel ->
       list_all fuel branch_name w = (Returned all_prs, w'))
    /\ all_prs = concat (map page_items (pages branch 3 0 w))
    /\ List.length all_prs = 237
    /\ sent w' =
         sent w ++ map (fun offset => GET (page_url branch offset))
                       [0; 100; 200; 300]
    /\ (plain_path (base_url http_client) = true ->
        plain_path (repository_id _context) = true ->
        map (fun offset => query_param "$skip" (page_url branch offset))
            [0; 100; 200; 300]
        = [Some "0"; Some "100"; Some "200"; Some "300"]).
Proof.
  cbv zeta. set (branch := with_default None branch_name). intros H.
  rewrite served_pages_map in H. cbn [seq map] in H.
  injection H as L0 L1 L2 L3.
  exists (items branch 0 3 w), (after branch 4 0 w).
  assert (Hall : forall i, i < 3 ->
            nonempty_page (page_from http_client _context branch 0 i w) = true).
  { intros [|[|[|i]]] Hi; try lia; eapply page_len_nonempty; eassumption. }
  repeat split.
  - intros fuel Hfuel. unfold list_all_pull_requests. fold branch.
    change 0 with (100 * 0) at 1.
    rewrite (loop_stops _ _ _ 3 0 fuel [] w Hall) by
      (try apply (proj1 (empty_page_stop [] _ (page_len_empty _ L3))); lia).
    now rewrite (proj2 (empty_page_stop _ _ (page_len_empty _ L3))).
  - rewrite served_pages_map, map_map. reflexivity.
  - unfold pages_items. cbn [seq map concat].
    rewrite !length_app, (page_items_length _ _ L0),
      (page_items_length _ _ L1), (page_items_length _ _ L2).
    reflexivity.
  - rewrite world_after_sent. reflexivity.
  - intros Pb Pr. cbn [map].
    now rewrite !(proj2 (page_url_top_skip _ _ Pb Pr _ _)).
Qed.

(** C2. The loop returns exactly when some page is empty and every page
    before it is non-empty; the result is then the pages before it
    concatenated in request order, for every amount of fuel above their
    number.  Nothing bounds the number of pages: when every page the
    server serves is non-empty the loop is still running whatever the
    fuel, and only then. *)
Theorem listing_stops_at_first_empty_page
    (branch_name : Arg (option string)) (w : World Server) :
  let branch := with_default None branch_name in
  let run fuel := list_all fuel branch_name w in
  let page i := page_of branch i w in
  (forall all_prs w',
      (exists fuel, run fuel = (Returned all_prs, w')) <->
      (exists n,
          (forall i, i < n -> nonempty_page (page i) = true)
          /\ empty_page (page n) = true
          /\ all_prs = items branch 0 n w
          /\ w' = after branch (S n) 0 w))
  /\ (forall n,
        (forall i, i < n -> nonempty_page (page i) = true) ->
        empty_page (page n) = true ->
        forall fuel, n < fuel ->
          run fuel = (Returned (items branch 0 n w), after branch (S n) 0 w))
  /\ ((forall i, nonempty_page (page i) = true) <->
      (forall fuel, fst (run fuel) = OutOfFuel)).
Proof.
  cbv zeta. set (branch := with_default None branch_name).
  unfold list_all_pull_requests, page_at. fold branch.
  assert (Hstops : forall n,
            (forall i, i < n ->
               nonempty_page (page_from http_client _context branch 0 i w) = true) ->
            empty_page (page_from http_client _context branch 0 n w) = true ->
            forall fuel, n < fuel ->
              list_all_pull_requests_loop http_client _context fuel branch 0 [] w
              = (Returned (items branch 0 n w), after branch (S n) 0 w)).
  { intros n Hall Hempty fuel Hfuel.
    destruct (empty_page_stop (items branch 0 n w) _ Hempty) as [Hstop Hret].
    change 0 with (100 * 0) at 1.
    rewrite (loop_stops _ _ _ n 0 fuel [] w Hall Hstop Hfuel).
    cbn [app]. now rewrite Hret. }
  split; [|split].
  - intros all_prs w'. split.
    + intros [fuel Hrun].
      change 0 with (100 * 0) in Hrun at 1.
      destruct (loop_run http_client _context branch fuel 0 [] w)
        as [(n & Hn & Hall & Hstop & Hrun') | (_ & Hrun')];
        rewrite Hrun' in Hrun; [|discriminate].
      injection Hrun as Hout Hw. cbn [app] in Hout.
      apply page_stop_returned in Hout as [Hempty Hres].
      exists n. now repeat split.
    + intros (n & Hall & Hempty & -> & ->).
      exists (S n). apply Hstops; auto.
  - exact Hstops.
  - split.
    + intros Hall fuel.
      change 0 with (100 * 0) at 1.
      now rewrite (loop_running _ _ _ 0 fuel [] w (fun i _ => Hall i)).
    + intros Hrun i. specialize (Hrun (S i)).
      change 0 with (100 * 0) in Hrun at 1.
      destruct (loop_run http_client _context branch (S i) 0 [] w)
        as [(n & Hn & _ & _ & Hrun') | (Hall & _)].
      * rewrite Hrun' in Hrun. cbn [fst] in Hrun.
        now apply page_stop_not_out_of_fuel in Hrun.
      * apply Hall. lia.
Qed.

Lemma fetch_raises (branch : option string) (offset : nat)
    (w : World Server) (e : Exception) :
  (fst (get http_client (page_url branch offset) w) = Raised e
   \/ exists response w1,
        get http_client (page_url branch offset) w = (Returned response, w1)
        /\ fst (decode_response response w1) = Raised e) ->
  fst (fetch_page http_client _context branch offset w) = Raised e.
Proof.
  unfold fetch_page, bind.
  intros [G | (response & w1 & G & D)].
  - destruct (get _ _ w) as [o w1]. cbn [fst] in G. now subst o.
  - rewrite G. destruct (decode_response response w1) as [o w2].
    cbn [fst] in D. now subst o.
Qed.

(** C3. When the get or the decode of a page raises, every page before it
    having been non-empty, the listing raises that exception and returns
    nothing of what it had gathered; a result is returned only at an empty
    page that ends the listing, and it is the concatenation of all the
    pages before that one. *)
Theorem listing_fails_with_the_page_exception
    (branch_name : Arg (option string)) (w : World Server) :
  let branch := with_default None branch_name in
  let run fuel := list_all fuel branch_name w in
  let page i := page_of branch i w in
  (forall n e,
      (forall i, i < n -> nonempty_page (page i) = true) ->
      (let url := page_url branch (100 * n) in
       let wn := after branch n 0 w in
       fst (get http_client url wn) = Raised e
       \/ exists response w1,
            get http_client url wn = (Returned response, w1)
            /\ fst (decode_response response w1) = Raised e) ->
      forall fuel, n < fuel ->
        run fuel = (Raised e, after branch (S n) 0 w))
  /\ (forall fuel all_prs w',
        run fuel = (Returned all_prs, w') ->
        exists n,
          n < fuel
          /\ (forall i, i < n -> nonempty_page (page i) = true)
          /\ empty_page (page n) = true
          /\ all_prs = items branch 0 n w
          /\ w' = after branch (S n) 0 w).
Proof.
  cbv zeta. set (branch := with_default None branch_name).
  unfold list_all_pull_requests, page_at. fold branch.
  split.
  - intros n e Hall Hraise fuel Hfuel.
    apply fetch_raises in Hraise.
    assert (Hp : page_from http_client _context branch 0 n w = Raised e)
      by exact Hraise.
    change 0 with (100 * 0) at 1.
    rewrite (loop_stops _ _ _ n 0 fuel [] w Hall) by (now rewrite ?Hp).
    now rewrite Hp.
  - intros fuel all_prs w' Hrun.
    change 0 with (100 * 0) in Hrun at 1.
    destruct (loop_run http_client _context branch fuel 0 [] w)
      as [(n & Hn & Hall & Hstop & Hrun') | (_ & Hrun')];
      rewrite Hrun' in Hrun; [|discriminate].
    injection Hrun as Hout Hw. cbn [app] in Hout.
    apply page_stop_returned in Hout as [Hempty Hres].
    exists n. now repeat split.
Qed.

(** C9. The offset moves on by 100 after every non-empty page, whatever
    the number of elements of the page: when the first [k] pages are
    non-empty, of any sizes, the loop sends a request number [k] and its
    offset is [100 * k], which is what its [$skip] parameter reads. *)
Theorem skip_advances_by_100_per_page
    (branch_name : Arg (option string)) (w : World Server) (k fuel : nat) :
  let branch := with_default None branch_name in
  (forall i, i < k -> nonempty_page (page_of branch i w) = true) ->
  k < fuel ->
  (exists n,
      k < n /\ n <= fuel
      /\ sent (snd (list_all fuel branch_name w)) =
           sent w ++ requests branch n 0)
  /\ nth_error (sent (snd (list_all fuel branch_name w)))
               (List.length (sent w) + k)
     = Some (GET (page_url branch (100 * k)))
  /\ (plain_path (base_url http_client) = true ->
      plain_path (repository_id _context) = true ->
      query_param "$skip" (page_url branch (100 * k))
      = Some (PyStr.format_int (100 * k))).
Proof.
  cbv zeta. set (branch := with_default None branch_name).
  unfold list_all_pull_requests, page_at. fold branch.
  intros Hall Hfuel.
  assert (Hsent : exists n,
            k < n /\ n <= fuel
            /\ sent (snd (list_all_pull_requests_loop http_client _context
                            fuel branch 0 [] w))
               = sent w ++ requests branch n 0).
  { change 0 with (100 * 0) at 1.
    destruct (loop_run http_client _context branch fuel 0 [] w)
      as [(n & Hn & _ & Hstop & Hrun) | (_ & Hrun)]; rewrite Hrun; cbn [snd].
    - exists (S n). repeat split; [|lia|apply world_after_sent].
      destruct (Nat.lt_ge_cases n k) as [Hlt|]; [|lia].
      rewrite (Hall n Hlt) in Hstop. discriminate.
    - exists fuel. repeat split; [assumption|lia|apply world_after_sent]. }
  split; [exact Hsent|]. split.
  - destruct Hsent as (n & Hk & _ & ->).
    rewrite nth_error_app2 by lia.
    replace (List.length (sent w) + k - List.length (sent w)) with k by lia.
    now apply nth_page_request.
  - intros Pb Pr. apply (page_url_top_skip _ _ Pb Pr).
Qed.

End ListAllPullRequests.

(** ** Runs against the test doubles *)

Lemma list_all_pull_requests_four_pages_witness :
  exists all_prs w',
    (forall fuel, 4 <= fuel ->
       list_all_pull_requests Fake.four_pages Fake.context fuel Omitted Fake.start
         = (Returned all_prs, w'))
    /\ all_prs = concat (map page_items
                           (served_pages Fake.four_pages Fake.context None 3 0
                              Fake.start))
    /\ List.length all_prs = 237
    /\ sent w' =
         (sent Fake.start
           ++ map (fun offset =>
                     GET (pull_requests_page_url Fake.four_pages Fake.context
                            None offset))
                  [0; 100; 200; 300])%list
    /\ (plain_path (base_url Fake.four_pages) = true ->
        plain_path (repository_id Fake.context) = true ->
        map (fun offset =>
               query_param "$skip"
                 (pull_requests_page_url Fake.four_pages Fake.context None offset))
            [0; 100; 200; 300]
        = [Some "0"; Some "100"; Some "200"; Some "300"]).
Proof.
  apply (list_all_pull_requests_four_pages
           Fake.four_pages Fake.context Omitted Fake.start).
  vm_compute. reflexivity.
Defined.

(** The endless server serves one pull request whatever it is asked. *)
Lemma endless_page (branch : option string) (offset : nat) (w : World nat) :
  fst (fetch_page Fake.endless Fake.context branch offset w)
  = Returned (JArr [Fake.pull_request 0]).
Proof.
  unfold fetch_page, bind, get, request. cbn.
  now destruct (server w).
Qed.

Lemma listing_stops_at_first_empty_page_witness :
  (forall fuel, 3 < fuel ->
     list_all_pull_requests Fake.uneven_pages Fake.context fuel Omitted Fake.start
     = (Returned (pages_items Fake.uneven_pages Fake.context None 0 3 Fake.start),
        world_after Fake.uneven_pages Fake.context None 4 0 Fake.start))
  /\ (forall fuel,
        fst (list_all_pull_requests Fake.endless Fake.context fuel Omitted
               Fake.start) = OutOfFuel).
Proof.
  split.
  - destruct (listing_stops_at_first_empty_page
                Fake.uneven_pages Fake.context Omitted Fake.start)
      as (_ & Hstops & _).
    apply Hstops.
    + intros [|[|[|i]]] Hi; [reflexivity | reflexivity | reflexivity | lia].
    + reflexivity.
  - destruct (listing_stops_at_first_empty_page
                Fake.endless Fake.context Omitted Fake.start)
      as (_ & _ & Hendless).
    apply Hendless. intros i.
    unfold page_at, page_from. now rewrite endless_page.
Defined.

Lemma listing_fails_with_the_page_exception_witness :
  (forall fuel, 2 < fuel ->
     list_all_pull_requests Fake.dropping Fake.context fuel Omitted Fake.start
     = (Raised (ADOExn (HttpFailure "connection reset")),
        world_after Fake.dropping Fake.context None 3 0 Fake.start))
  /\ (forall fuel, 1 < fuel ->
        list_all_pull_requests Fake.erroring Fake.context fuel Omitted Fake.start
        = (Raised (ADOExn (DecodeFailure {| status_code := 500; body := None |})),
           world_after Fake.erroring Fake.context None 2 0 Fake.start)).
Proof.
  split.
  - destruct (listing_fails_with_the_page_exception
                Fake.dropping Fake.context Omitted Fake.start) as (Hfails & _).
    apply Hfails.
    + intros [|[|i]] Hi; [reflexivity | reflexivity | lia].
    + left. reflexivity.
  - destruct (listing_fails_with_the_page_exception
                Fake.erroring Fake.context Omitted Fake.start) as (Hfails & _).
    apply Hfails.
    + intros [|i] Hi; [reflexivity | lia].
    + right. eexists. eexists. split; reflexivity.
Defined.

Lemma skip_advances_by_100_per_page_witness :
  nth_error
    (sent (snd (list_all_pull_requests Fake.uneven_pages Fake.context 10
                  (Passed (Some "main")) Fake.start)))
    (List.length (sent Fake.start) + 3)
  = Some (GET (pull_requests_page_url Fake.uneven_pages Fake.context
                 (Some "main") 300))
  /\ query_param "$skip"
       (pull_requests_page_url Fake.uneven_pages Fake.context (Some "main") 300)
     = Some "300".
Proof.
  destruct (skip_advances_by_100_per_page
              Fake.uneven_pages Fake.context (Passed (Some "main")) Fake.start
              3 10) as (_ & Hnth & Hskip).
  - intros [|[|[|i]]] Hi; [reflexivity | reflexivity | reflexivity | lia].
  - lia.
  - split; [exact Hnth | apply Hskip; reflexivity].
Defined.

(** C8. A branch name with an [&] in it does not reach the server whole:
    for [branch_name="R&D"] the canonical name is ["refs/heads/R&D"], the
    name goes into the URL as it is, and the [sourceRefName] parameter of
    every page request reads ["refs/heads/R"], followed by a stray
    parameter [D]. *)
Theorem source_branch_is_cut_at_ampersand :
  let run :=
    list_all_pull_requests Fake.four_pages Fake.context 4
      (Passed (Some "R&D")) Fake.start in
  _canonicalize_branch_name "R&D" = "refs/heads/R&D"
  /\ nth_error (sent (snd run)) 0 =
       Some (GET "https://contoso/DefaultCollection/proj/_apis/git/repositories/repo/pullRequests?$top=100&$skip=0&sourceRefName=refs/heads/R&D&api-version=3.0-preview")
  /\ option_map (fun r => query_params (request_url r))
       (nth_error (sent (snd run)) 0) =
       Some [ ("$top", "100"); ("$skip", "0");
              ("sourceRefName", "refs/heads/R"); ("D", "");
              ("api-version", "3.0-preview") ]
  /\ map (fun r => query_param "sourceRefName" (request_url r))
         (sent (snd run))
     = [ Some "refs/heads/R"; Some "refs/heads/R";
         Some "refs/heads/R"; Some "refs/heads/R" ].
Proof. vm_compute. repeat split; reflexivity. Qed.

(** * Further properties of the facade *)

(** ** More on canonicalization *)

Lemma append_inj_l (p s t : string) : p ++ s = p ++ t -> s = t.
Proof. induction p as [|a p IH]; simpl; intros H; [exact H|]. injection H. exact IH. Qed.

Lemma length_append (s t : string) :
  String.length (s ++ t) = String.length s + String.length t.
Proof. induction s; simpl; congruence. Qed.

Lemma canonicalize_of_canonical (s : string) :
  _canonicalize_branch_name (_canonicalize_branch_name s)
  = _canonicalize_branch_name s.
Proof.
  unfold _canonicalize_branch_name.
  destruct (PyStr.startswith "refs/heads/" s) eqn:E; cbn [negb];
    [now rewrite E | now rewrite startswith_app].
Qed.

(** X1. Whatever the input (the empty string and other [refs/...]
    namespaces included), the canonicalized name starts with
    [refs/heads/]. *)
Theorem canonicalize_starts_with_heads (s : string) :
  PyStr.startswith "refs/heads/" (_canonicalize_branch_name s) = true.
Proof.
  unfold _canonicalize_branch_name.
  destruct (PyStr.startswith "refs/heads/" s) eqn:E; cbn [negb];
    [exact E | apply startswith_app].
Qed.

(** X2. Canonicalization leaves a name as it is exactly when the name
    already starts with [refs/heads/]; any other name grows by the eleven
    characters of the prefix. *)
Theorem canonicalize_fixed_points (s : string) :
  (_canonicalize_branch_name s = s <-> PyStr.startswith "refs/heads/" s = true)
  /\ String.length (_canonicalize_branch_name s)
     = (if PyStr.startswith "refs/heads/" s then 0 else 11) + String.length s.
Proof.
  unfold _canonicalize_branch_name.
  destruct (PyStr.startswith "refs/heads/" s) eqn:E; cbn [negb].
  - repeat split; reflexivity.
  - split; [|now rewrite length_append].
    split; [|discriminate].
    intros H. apply (f_equal String.length) in H.
    rewrite length_append in H. cbn in H. lia.
Qed.

(** X3. Two names canonicalize to the same reference only when they are
    the same name or one is the other with [refs/heads/] in front. *)
Theorem canonicalize_collisions (s t : string) :
  _canonicalize_branch_name s = _canonicalize_branch_name t ->
  s = t \/ s = "refs/heads/" ++ t \/ t = "refs/heads/" ++ s.
Proof.
  unfold _canonicalize_branch_name.
  destruct (PyStr.startswith "refs/heads/" s),
           (PyStr.startswith "refs/heads/" t); cbn [negb]; intros H.
  - now left.
  - right. now left.
  - right. right. now symmetry.
  - left. now apply append_inj_l in H.
Qed.

Lemma canonicalize_collisions_witness :
  "main" = "refs/heads/main"
  \/ "main" = "refs/heads/" ++ "refs/heads/main"
  \/ "refs/heads/main" = "refs/heads/" ++ "main".
Proof. apply (canonicalize_collisions "main" "refs/heads/main"). reflexivity. Defined.

(** ** More on creating a pull request *)

Section CreatePullRequestMore.

Context {Server : Type}.
Variable http_client : ADOHTTPClient Server.
Variable _context : ADOContext.

Local Open Scope list_scope.

(** X4. Whatever the arguments, [create_pull_request] puts exactly one
    POST on the wire, to the pull-requests URL of the repository, and its
    body holds the two canonicalized refs, then [title] and [description]
    when they are not [None] (empty strings are sent), then [reviewers]
    when the list is not [None] and not empty, one [{"id": ...}] per
    reviewer in order, and nothing else. *)
Theorem create_pull_request_fields
    (source_branch target_branch : string)
    (title_arg description_arg : Arg (option string))
    (reviewer_ids_arg : Arg (option (list string))) (w : World Server) :
  let title := with_default None title_arg in
  let description := with_default None description_arg in
  let reviewer_ids :=
    match with_default None reviewer_ids_arg with
    | Some ids => ids
    | None => []
    end in
  let url :=
    ((base_url http_client ++ "/git/repositories/" ++ repository_id _context)
       ++ "/pullRequests?api-version=5.1")%string in
  let present {A} (o : option A) (key : string) :=
    match o with Some _ => [key] | None => [] end in
  exists fields,
    sent (snd (create_pull_request http_client _context
                 source_branch target_branch
                 title_arg description_arg reviewer_ids_arg w))
      = sent w ++ [POST url (JObj fields)]
    /\ PyDict.keys fields =
         ["sourceRefName"; "targetRefName"]
           ++ present title "title" ++ present description "description"
           ++ (if (0 <? List.length reviewer_ids)%nat then ["reviewers"] else [])
    /\ PyDict.get "sourceRefName" fields
         = Some (JStr (_canonicalize_branch_name source_branch))
    /\ PyDict.get "targetRefName" fields
         = Some (JStr (_canonicalize_branch_name target_branch))
    /\ PyDict.get "title" fields = option_map JStr title
    /\ PyDict.get "description" fields = option_map JStr description
    /\ PyDict.get "reviewers" fields =
         (if (0 <? List.length reviewer_ids)%nat
          then Some (JArr (map (fun reviewer_id => JObj [("id", JStr reviewer_id)])
                               reviewer_ids))
          else None).
Proof.
  cbv zeta. unfold create_pull_request.
  eexists. split; [apply post_decode_sent|].
  destruct title_arg as [|[t|]], description_arg as [|[d|]],
    reviewer_ids_arg as [|[[|id ids]|]]; cbn; repeat split; reflexivity.
Qed.


End CreatePullRequestMore.

(** ** More on verifying access *)


(** ** More on listing all pull requests *)

Section ListAllPullRequestsMore.

Context {Server : Type}.
Variable http_client : ADOHTTPClient Server.
Variable _context : ADOContext.

Local Open Scope list_scope.

Local Notation list_all := (list_all_pull_requests http_client _context).
Local Notation page_url := (pull_requests_page_url http_client _context).
Local Notation page_of := (page_at http_client _context).
Local Notation after := (world_after http_client _context).
Local Notation items := (pages_items http_client _context).
Local Notation requests := (page_requests http_client _context).

(** The run of the listing, read off the pages: it stops at the first page
    that is not a non-empty one, or is out of fuel. *)
Lemma listing_run (fuel : nat) (branch_name : Arg (option string))
    (w : World Server) :
  let branch := with_default None branch_name in
  (exists n,
      n < fuel
      /\ (forall i, i < n -> nonempty_page (page_of branch i w) = true)
      /\ nonempty_page (page_of branch n w) = false
      /\ list_all fuel branch_name w =
           (page_stop (items branch 0 n w) (page_of branch n w),
            after branch (S n) 0 w))
  \/ ((forall i, i < fuel -> nonempty_page (page_of branch i w) = true)
      /\ list_all fuel branch_name w = (OutOfFuel, after branch fuel 0 w)).
Proof.
  cbv zeta. unfold list_all_pull_requests, page_at.
  change 0 with (100 * 0) at 3 7.
  exact (loop_run http_client _context _ fuel 0 [] w).
Qed.


Lemma page_items_default (p : Outcome json) :
  List.length (page_items p)
  = match page_len p with Some l => l | None => 0 end.
Proof.
  destruct p as [x | e |]; cbn; try reflexivity.
  destruct (py_len x) as [l|] eqn:L.
  - destruct (py_iter_defined x l L) as [more I]. rewrite I.
    exact (py_iter_length x l more L I).
  - destruct x; cbn in *; try discriminate; reflexivity.
Qed.

Lemma pages_items_length (branch : option string) (n : nat) (w : World Server) :
  List.length (items branch 0 n w) =
    list_sum (map (fun i => match page_len (page_of branch i w) with
                            | Some l => l
                            | None => 0
                            end) (seq 0 n)).
Proof.
  unfold pages_items, page_at.
  induction (seq 0 n) as [|i l IH]; cbn [map concat list_sum]; [reflexivity|].
  now rewrite length_app, IH, page_items_default.
Qed.

Lemma pages_items_at_least (branch : option string) (n : nat) (w : World Server) :
  (forall i, i < n -> nonempty_page (page_of branch i w) = true) ->
  n <= List.length (items branch 0 n w).
Proof.
  intros Hall. rewrite pages_items_length.
  assert (H : forall l, (forall i, In i l -> i < n) ->
            List.length l <=
            list_sum (map (fun i => match page_len (page_of branch i w) with
                                    | Some l => l
                                    | None => 0
                                    end) l)).
  { induction l as [|i l IH]; intros Hl; simpl; [lia|].
    specialize (IH (fun j Hj => Hl j (or_intror Hj))).
    specialize (Hall i (Hl i (or_introl eq_refl))).
    unfold nonempty_page in Hall.
    destruct (page_len (page_of branch i w)) as [[|m]|]; try discriminate. lia. }
  specialize (H (seq 0 n)). rewrite length_seq in H. apply H.
  intros i Hi. apply in_seq in Hi. lia.
Qed.

(** X7. The listing returns the empty list exactly when the very first
    page is empty; it has then sent one request. *)
Theorem listing_empty_result
    (branch_name : Arg (option string)) (w w' : World Server) (fuel : nat) :
  let branch := with_default None branch_name in
  list_all fuel branch_name w = (Returned [], w')
  <-> (0 < fuel /\ empty_page (page_of branch 0 w) = true
       /\ w' = after branch 1 0 w).
Proof.
  cbv zeta. split.
  - intros Hrun.
    destruct (listing_run fuel branch_name w)
      as [(n & Hn & Hall & Hstop & Hrun') | (_ & Hrun')];
      rewrite Hrun' in Hrun; [|discriminate].
    injection Hrun as Hout Hw.
    apply page_stop_returned in Hout as [Hempty Hnil].
    destruct n as [|n]; [repeat split; [lia | exact Hempty | now symmetry]|].
    pose proof (pages_items_at_least _ _ w Hall) as Hlen.
    rewrite <- Hnil in Hlen. cbn in Hlen. lia.
  - intros (Hfuel & Hempty & ->).
    destruct (empty_page_stop [] _ Hempty) as [Hstop Hret].
    unfold list_all_pull_requests. change 0 with (100 * 0) at 1.
    rewrite (loop_stops http_client _context _ 0 0 fuel [] w)
      by (try exact Hstop; try lia; intros i Hi; lia).
    unfold pages_items. cbn [seq map concat app].
    unfold page_at in Hret. now rewrite Hret.
Qed.

(** X8. A listing that returns has fetched some [n] non-empty pages and
    one empty page: it has sent [n + 1] requests, and its result has as
    many elements as those pages together, at least [n]. *)
Theorem listing_result_size
    (branch_name : Arg (option string)) (w w' : World Server) (fuel : nat)
    (all_prs : list json) :
  let branch := with_default None branch_name in
  list_all fuel branch_name w = (Returned all_prs, w') ->
  exists n,
    n < fuel
    /\ List.length (sent w') = List.length (sent w) + S n
    /\ List.length all_prs =
         list_sum (map (fun i => match page_len (page_of branch i w) with
                                 | Some l => l
                                 | None => 0
                                 end) (seq 0 n))
    /\ n <= List.length all_prs.
Proof.
  cbv zeta. intros Hrun.
  destruct (listing_run fuel branch_name w)
    as [(n & Hn & Hall & Hstop & Hrun') | (_ & Hrun')];
    rewrite Hrun' in Hrun; [|discriminate].
  assert (Hw : w' = after (with_default None branch_name) (S n) 0 w)
    by congruence.
  assert (Hout : page_stop (items (with_default None branch_name) 0 n w)
                   (page_of (with_default None branch_name) n w)
                 = Returned all_prs) by congruence.
  apply page_stop_returned in Hout as [Hempty ->].
  exists n. rewrite Hw. repeat split.
  - exact Hn.
  - rewrite world_after_sent, length_app. unfold page_requests.
    now rewrite length_map, length_seq.
  - apply pages_items_length.
  - now apply pages_items_at_least.
Qed.

(** X9. A listing that raises does so at the first page that is not a
    non-empty one: either fetching that page raised the exception, or the
    page's payload has no length and the exception is [TypeError]. *)
Theorem listing_raises_at_a_page
    (branch_name : Arg (option string)) (w w' : World Server) (fuel : nat)
    (e : Exception) :
  let branch := with_default None branch_name in
  list_all fuel branch_name w = (Raised e, w') ->
  exists n,
    n < fuel
    /\ (forall i, i < n -> nonempty_page (page_of branch i w) = true)
    /\ w' = after branch (S n) 0 w
    /\ (page_of branch n w = Raised e
        \/ (e = TypeError
            /\ exists extracted,
                 page_of branch n w = Returned extracted
                 /\ py_len extracted = None)).
Proof.
  cbv zeta. intros Hrun.
  destruct (listing_run fuel branch_name w)
    as [(n & Hn & Hall & Hstop & Hrun') | (_ & Hrun')];
    rewrite Hrun' in Hrun; [|discriminate].
  assert (Hw : w' = after (with_default None branch_name) (S n) 0 w)
    by congruence.
  assert (Hout : page_stop (items (with_default None branch_name) 0 n w)
                   (page_of (with_default None branch_name) n w)
                 = Raised e) by congruence.
  exists n. repeat split; [exact Hn | exact Hall | exact Hw |].
  unfold page_stop in Hout. unfold nonempty_page, page_len in Hstop.
  destruct (page_of _ n w) as [x | e' |]; [| left; congruence | congruence].
  right. destruct (py_len x) as [[|m]|] eqn:L; try congruence.
  split; [congruence | eauto].
Qed.

(** X10. A payload that has no length (a number, a boolean or null where
    the list of pull requests should be) makes the listing raise
    [TypeError], which is no [ADOException], and what the pages before it
    held is lost. *)
Theorem listing_type_error
    (branch_name : Arg (option string)) (w : World Server) (n : nat)
    (extracted : json) :
  let branch := with_default None branch_name in
  (forall i, i < n -> nonempty_page (page_of branch i w) = true) ->
  page_of branch n w = Returned extracted ->
  py_len extracted = None ->
  forall fuel, n < fuel ->
    list_all fuel branch_name w = (Raised TypeError, after branch (S n) 0 w).
Proof.
  cbv zeta. intros Hall Hpage Hlen fuel Hfuel.
  unfold list_all_pull_requests, page_at in *.
  change 0 with (100 * 0) at 1.
  rewrite (loop_stops http_client _context _ n 0 fuel [] w Hall)
    by (try lia; rewrite Hpage; unfold nonempty_page, page_len;
        now rewrite Hlen).
  rewrite Hpage. unfold page_stop. now rewrite Hlen.
Qed.

End ListAllPullRequestsMore.

Section ListAllPullRequestsUrls.

Context {Server : Type}.
Variable http_client : ADOHTTPClient Server.
Variable _context : ADOContext.

Local Open Scope list_scope.

Local Notation list_all := (list_all_pull_requests http_client _context).
Local Notation page_url := (pull_requests_page_url http_client _context).
Local Notation loop := (list_all_pull_requests_loop http_client _context).


Lemma page_url_canonical (s : string) (offset : nat) :
  page_url (Some (_canonicalize_branch_name s)) offset
  = page_url (Some s) offset.
Proof.
  unfold pull_requests_page_url. now rewrite canonicalize_of_canonical.
Qed.

Lemma loop_canonical (fuel : nat) (s : string) (offset : nat)
    (all_prs : list json) (w : World Server) :
  loop fuel (Some (_canonicalize_branch_name s)) offset all_prs w
  = loop fuel (Some s) offset all_prs w.
Proof.
  revert offset all_prs w.
  induction fuel as [|fuel IH]; intros offset all_prs w; [reflexivity|].
  rewrite !loop_step. unfold fetch_page. rewrite page_url_canonical.
  match goal with |- match ?f with _ => _ end = _ => destruct f as [[x | e |] w1] end;
    try reflexivity.
  destruct (py_len x) as [[|m]|], (py_iter x); try reflexivity. apply IH.
Qed.

(** X12. A caller may pass a branch bare or already canonical, it makes no
    difference: the listing filtered by [s] and the listing filtered by
    the canonical form of [s] are the same run, and so are the two ways
    of naming the branches of a new pull request. *)
Theorem canonical_names_are_interchangeable
    (s source_branch target_branch : string)
    (title description : Arg (option string))
    (reviewer_ids : Arg (option (list string)))
    (fuel : nat) (w : World Server) :
  list_all fuel (Passed (Some (_canonicalize_branch_name s))) w
    = list_all fuel (Passed (Some s)) w
  /\ create_pull_request http_client _context
       (_canonicalize_branch_name source_branch)
       (_canonicalize_branch_name target_branch)
       title description reviewer_ids w
     = create_pull_request http_client _context source_branch target_branch
         title description reviewer_ids w.
Proof.
  split.
  - unfold list_all_pull_requests. cbn [with_default]. apply loop_canonical.
  - unfold create_pull_request. now rewrite !canonicalize_of_canonical.
Qed.

End ListAllPullRequestsUrls.

(** ** The generic GET *)

Lemma quote_char_plain (a : ascii) :
  PyStr.contains "&" (UrlLib.quote_char a) = false
  /\ PyStr.contains "=" (UrlLib.quote_char a) = false
  /\ PyStr.contains "#" (UrlLib.quote_char a) = false
  /\ PyStr.contains "?" (UrlLib.quote_char a) = false.
Proof.
  destruct a as [[] [] [] [] [] [] [] []]; vm_compute; repeat split.
Qed.

Lemma quote_plus_plain (s : string) :
  PyStr.contains "&" (UrlLib.quote_plus s) = false
  /\ PyStr.contains "=" (UrlLib.quote_plus s) = false
  /\ PyStr.contains "#" (UrlLib.quote_plus s) = false
  /\ PyStr.contains "?" (UrlLib.quote_plus s) = false.
Proof.
  induction s as [|a s (I1 & I2 & I3 & I4)]; cbn [UrlLib.quote_plus];
    [repeat split|].
  destruct (quote_char_plain a) as (H1 & H2 & H3 & H4).
  rewrite !contains_app, H1, H2, H3, H4, I1, I2, I3, I4. repeat split.
Qed.

Lemma unquote_quote_char (a : ascii) (rest : string) :
  UrlLib.unquote_plus (UrlLib.quote_char a ++ rest)
  = String a (UrlLib.unquote_plus rest).
Proof.
  destruct a as [[] [] [] [] [] [] [] []]; reflexivity.
Qed.

(** Decoding what [quote_plus] wrote gives the string back. *)
Lemma unquote_quote_plus (s : string) :
  UrlLib.unquote_plus (UrlLib.quote_plus s) = s.
Proof.
  induction s as [|a s IH]; [reflexivity|].
  cbn [UrlLib.quote_plus]. now rewrite unquote_quote_char, IH.
Qed.

Lemma split_concat (pieces : list string) :
  pieces <> [] ->
  (forall p, In p pieces -> PyStr.contains "&" p = false) ->
  PyStr.split "&" (String.concat "&" pieces) = pieces.
Proof.
  induction pieces as [|x [|y rest] IH]; intros Hne Hall; [easy| |].
  - cbn [String.concat]. apply split_absent, Hall. now left.
  - change (String.concat "&" (x :: y :: rest))
      with (x ++ String "&" (String.concat "&" (y :: rest))).
    rewrite split_at by (apply Hall; now left).
    f_equal. apply IH; [discriminate|].
    intros p Hp. apply Hall. now right.
Qed.

Section CustomGetProperties.

Context {Server : Type}.
Variable http_client : ADOHTTPClient Server.
Variable base_url_for : bool -> bool -> bool -> string.

Local Open Scope list_scope.

Lemma urlencode_query_params (path : string)
    (parameters : list (string * string)) :
  plain_path path = true ->
  parameters <> [] ->
  decoded_query_params
    (path ++ String "?" (UrlLib.urlencode parameters))%string = parameters.
Proof.
  intros Hpath Hne.
  apply andb_true_iff in Hpath as [Hq Hh]. apply negb_true_iff in Hq, Hh.
  set (piece := fun kv : string * string =>
         (UrlLib.quote_plus (fst kv) ++ "=" ++ UrlLib.quote_plus (snd kv))%string).
  assert (Hpiece : forall c,
            (c = "&" \/ c = "#" \/ c = "?")%char ->
            forall kv, PyStr.contains c (piece kv) = false).
  { intros c Hc kv. unfold piece.
    destruct (quote_plus_plain (fst kv)) as (K1 & _ & K3 & K4).
    destruct (quote_plus_plain (snd kv)) as (V1 & _ & V3 & V4).
    rewrite !contains_app.
    destruct Hc as [-> | [-> | ->]];
      rewrite ?K1, ?K3, ?K4, ?V1, ?V3, ?V4; reflexivity. }
  assert (Hjoin : forall c, (c = "#" \/ c = "?")%char ->
            forall l, PyStr.contains c (String.concat "&" (map piece l)) = false).
  { intros c Hc. induction l as [|kv [|kv' l] IH]; [reflexivity| |].
    - apply Hpiece. tauto.
    - change (String.concat "&" (map piece (kv :: kv' :: l)))
        with (piece kv ++ String "&"
                (String.concat "&" (map piece (kv' :: l))))%string.
      rewrite contains_app, (Hpiece c) by tauto.
      cbn [PyStr.contains orb]. rewrite IH.
      destruct Hc as [-> | ->]; reflexivity. }
  unfold decoded_query_params, query_params, url_query, UrlLib.urlencode.
  fold piece.
  rewrite partition_absent.
  2:{ rewrite contains_app, Hh. cbn [PyStr.contains orb Ascii.eqb Bool.eqb].
      apply Hjoin. now left. }
  rewrite partition_at by exact Hq. cbn [snd].
  rewrite split_concat.
  - rewrite !map_map. rewrite <- (map_id parameters) at 2.
    apply map_ext. intros [k v]. unfold piece. cbn [fst snd].
    change (UrlLib.quote_plus k ++ "=" ++ UrlLib.quote_plus v)%string
      with (UrlLib.quote_plus k ++ String "=" (UrlLib.quote_plus v))%string.
    rewrite query_pair_at by apply quote_plus_plain.
    cbn [fst snd]. now rewrite !unquote_quote_plus.
  - destruct parameters; [congruence | discriminate].
  - intros p Hp. apply in_map_iff in Hp as (kv & <- & _).
    apply Hpiece. now left.
Qed.

(** X13. [custom_get] sends one GET whose query string carries the
    parameters whole: when the base URL and the fragment open no query or
    fragment of their own and there is at least one parameter, splitting
    the query at [&] and [=] and undoing the percent-encoding gives back
    exactly the parameters passed, in order, whatever characters their
    names and values hold. *)
Theorem custom_get_parameters_round_trip
    (url_fragment : string) (parameters : list (string * string))
    (is_default_collection is_project is_internal : Arg bool)
    (w : World Server) :
  plain_path (base_url_for (with_default true is_default_collection)
                (with_default true is_project)
                (with_default false is_internal)) = true ->
  plain_path url_fragment = true ->
  parameters <> [] ->
  exists url,
    sent (snd (custom_get http_client base_url_for url_fragment parameters
                 is_default_collection is_project is_internal w))
      = sent w ++ [GET url]
    /\ decoded_query_params url = parameters.
Proof.
  intros Hbase Hfragment Hne. unfold custom_get. cbv zeta.
  eexists. split.
  - unfold get, request.
    destruct (transport _ _ _) as [[cause | response] s']; reflexivity.
  - rewrite <- append_assoc.
    change ("?" ++ UrlLib.urlencode parameters)%string
      with (String "?" (UrlLib.urlencode parameters)).
    rewrite <- append_assoc.
    apply urlencode_query_params; [|exact Hne].
    apply andb_true_iff in Hbase as [B1 B2].
    apply andb_true_iff in Hfragment as [F1 F2].
    apply negb_true_iff in B1, B2, F1, F2.
    unfold plain_path. rewrite !contains_app, B1, B2, F1, F2. reflexivity.
Qed.

(** X14. [custom_get] does not decode: whatever response the transport
    delivers is returned as it is, also one with a 4xx/5xx status, on
    which [decode_response] raises the Decode failure. *)
Theorem custom_get_returns_raw_response
    (url_fragment : string) (parameters : list (string * string))
    (is_default_collection is_project is_internal : Arg bool)
    (w : World Server) (response : RawResponse) (server' : Server) :
  let url :=
    (base_url_for (with_default true is_default_collection)
       (with_default true is_project) (with_default false is_internal)
     ++ "/" ++ url_fragment ++ "?" ++ UrlLib.urlencode parameters)%string in
  let w' := {| server := server'; sent := sent w ++ [GET url] |} in
  transport http_client (GET url) (server w) = (inr response, server') ->
  custom_get http_client base_url_for url_fragment parameters
    is_default_collection is_project is_internal w
    = (Returned response, w')
  /\ (((400 <=? status_code response)
       && (status_code response <? 600))%nat = true ->
      decode_response response w'
      = (Raised (ADOExn (DecodeFailure response)), w')).
Proof.
  cbv zeta. unfold custom_get. intros Hreply.
  split.
  - unfold get, request. now rewrite Hreply.
  - intros Hstatus. unfold decode_response. now rewrite Hstatus.
Qed.

End CustomGetProperties.

(** ** More runs against the test doubles *)

Lemma listing_result_size_witness :
  exists n,
    n < 10
    /\ List.length
         (sent (world_after Fake.four_pages Fake.context None 4 0 Fake.start))
       = List.length (sent Fake.start) + S n
    /\ List.length (pages_items Fake.four_pages Fake.context None 0 3 Fake.start)
       = list_sum
           (map (fun i =>
                   match page_len (page_at Fake.four_pages Fake.context None i
                                     Fake.start) with
                   | Some l => l
                   | None => 0
                   end) (seq 0 n))
    /\ n <= List.length
              (pages_items Fake.four_pages Fake.context None 0 3 Fake.start).
Proof.
  apply (listing_result_size Fake.four_pages Fake.context Omitted Fake.start
           (world_after Fake.four_pages Fake.context None 4 0 Fake.start) 10
           (pages_items Fake.four_pages Fake.context None 0 3 Fake.start)).
  vm_compute. reflexivity.
Defined.

Lemma listing_raises_at_a_page_witness :
  exists n,
    n < 10
    /\ (forall i, i < n ->
          nonempty_page (page_at Fake.dropping Fake.context None i Fake.start)
          = true)
    /\ world_after Fake.dropping Fake.context None 3 0 Fake.start
       = world_after Fake.dropping Fake.context None (S n) 0 Fake.start
    /\ (page_at Fake.dropping Fake.context None n Fake.start
        = Raised (ADOExn (HttpFailure "connection reset"))
        \/ (ADOExn (HttpFailure "connection reset") = TypeError
            /\ exists extracted,
                 page_at Fake.dropping Fake.context None n Fake.start
                 = Returned extracted
                 /\ py_len extracted = None)).
Proof.
  apply (listing_raises_at_a_page Fake.dropping Fake.context Omitted Fake.start
           (world_after Fake.dropping Fake.context None 3 0 Fake.start) 10
           (ADOExn (HttpFailure "connection reset"))).
  vm_compute. reflexivity.
Defined.

Lemma listing_type_error_witness :
  list_all_pull_requests
    (Fake.scripted [Fake.page 0 2]
       (inr {| status_code := 200;
               body := Some (JObj [("value", JNum 7)]) |}))
    Fake.context 5 Omitted Fake.start
  = (Raised TypeError,
     world_after
       (Fake.scripted [Fake.page 0 2]
          (inr {| status_code := 200;
                  body := Some (JObj [("value", JNum 7)]) |}))
       Fake.context None 2 0 Fake.start).
Proof.
  apply (listing_type_error
           (Fake.scripted [Fake.page 0 2]
              (inr {| status_code := 200;
                      body := Some (JObj [("value", JNum 7)]) |}))
           Fake.context Omitted Fake.start 1 (JNum 7)).
  - intros [|i] Hi; [reflexivity | lia].
  - reflexivity.
  - reflexivity.
  - lia.
Defined.


Lemma custom_get_parameters_round_trip_witness :
  exists url,
    sent (snd (custom_get Fake.four_pages
                 (fun _ _ _ => "https://contoso/DefaultCollection/proj/_apis")
                 "git/refs"
                 [("filter", "heads/R&D #1"); ("api-version", "5.1")]
                 Omitted Omitted Omitted Fake.start))
      = (sent Fake.start ++ [GET url])%list
    /\ decoded_query_params url
       = [("filter", "heads/R&D #1"); ("api-version", "5.1")].
Proof.
  apply (custom_get_parameters_round_trip Fake.four_pages
           (fun _ _ _ => "https://contoso/DefaultCollection/proj/_apis")
           "git/refs" [("filter", "heads/R&D #1"); ("api-version", "5.1")]
           Omitted Omitted Omitted Fake.start).
  - reflexivity.
  - reflexivity.
  - discriminate.
Defined.

Lemma custom_get_returns_raw_response_witness :
  custom_get Fake.unauthorized
    (fun _ _ _ => "https://contoso/DefaultCollection/proj/_apis")
    "git/refs" [("filter", "heads/main")] Omitted Omitted Omitted Fake.start
  = (Returned {| status_code := 401; body := Some (JObj []) |},
     {| server := 1;
        sent := [GET "https://contoso/DefaultCollection/proj/_apis/git/refs?filter=heads%2Fmain"] |})
  /\ decode_response {| status_code := 401; body := Some (JObj []) |}
       {| server := 1;
          sent := [GET "https://contoso/DefaultCollection/proj/_apis/git/refs?filter=heads%2Fmain"] |}
     = (Raised (ADOExn (DecodeFailure
                          {| status_code := 401; body := Some (JObj []) |})),
        {| server := 1;
           sent := [GET "https://contoso/DefaultCollection/proj/_apis/git/refs?filter=heads%2Fmain"] |}).
Proof.
  destruct (custom_get_returns_raw_response Fake.unauthorized
              (fun _ _ _ => "https://contoso/DefaultCollection/proj/_apis")
              "git/refs" [("filter", "heads/main")] Omitted Omitted Omitted
              Fake.start {| status_code := 401; body := Some (JObj []) |} 1
              eq_refl) as [Hraw Hdecode].
  split; [exact Hraw | apply Hdecode; reflexivity].
Defined.
